(** * qutebrowser.misc.lineparser: line-based files such as histories

    A shallow embedding of [src/qutebrowser/misc/lineparser.py]
    ([BaseLineParser], [LineParser], [LimitLineParser]) together with the
    Python built-ins and the operating-system calls the module relies on,
    followed by the properties of loading and saving.

    Conventions of the embedding.
    - A [bytes] object is a list of [Byte.byte]; a [str] is a list of code
      points ([N]).  A parser is indexed by its [_binary] flag, which fixes
      the type of the records it holds.
    - The file system is a finite map from path strings to nodes (regular
      file with its content, or directory with its mode).  Paths are compared
      as strings (POSIX, no symbolic links, no normalisation) and only the
      entry of a directory itself is tracked when it is created.
    - Whether a system call succeeds is chosen by the environment: every
      method takes an [Env] that fixes the outcome of each call it may make.
    - Methods are written in a state-and-exception monad over the object
      ([self]), the file system and the configuration store. *)

From Stdlib Require Import NArith ZArith Lia List Bool.
From Stdlib Require Import Strings.String Strings.Ascii Strings.Byte.
From stdpp Require Import base option list strings gmap fin_maps.

Set Default Proof Using "Type".
Open Scope Z_scope.

(** ** Characters, [bytes] and [str] *)

Module Py.

Abbreviation byte := Byte.byte.

(** Element type of a record: a byte in binary mode, a code point in text
    mode. *)
Definition char (binary : bool) : Type := if binary then byte else N.

(** [bytes] / [str], by mode. *)
Definition line (binary : bool) : Type := list (char binary).

Abbreviation bytes := (list byte).
Abbreviation str := (list N).

Definition LF_byte : byte := x0a.
Definition LF : N := 10%N.
Definition CR : N := 13%N.

(** The newline of the mode: [b'\n'] or ['\n']. *)
Definition nl (binary : bool) : char binary :=
  match binary with true => LF_byte | false => LF end.

#[global] Instance byte_eq_dec : EqDecision byte := Byte.byte_eq_dec.

#[global] Instance char_eq_dec (binary : bool) : EqDecision (char binary) :=
  match binary with
  | true => byte_eq_dec
  | false => N.eq_dec
  end.

Section Sequences.
Context {A : Type} `{EqDecision A}.

(** [sep.join(xs)] *)
Fixpoint join (sep : list A) (xs : list (list A)) : list A :=
  match xs with
  | [] => []
  | x :: xs' =>
      match xs' with
      | [] => x
      | _ :: _ => x ++ sep ++ join sep xs'
      end
  end.

(** [s.rstrip(chars)]: drop every trailing element that is in [chars]. *)
Fixpoint rstrip (chars : list A) (s : list A) : list A :=
  match s with
  | [] => []
  | c :: s' =>
      match rstrip chars s' with
      | [] => if decide (c ∈ chars) then [] else [c]
      | r => c :: r
      end
  end.

(** [f.readlines()] on content whose only line terminator is [eol]: the
    lines in order, each with its terminator kept; a last line without
    terminator is returned when it is not empty. *)
Fixpoint readlines (eol : A) (s : list A) : list (list A) :=
  match s with
  | [] => []
  | c :: s' =>
      if decide (c = eol) then [c] :: readlines eol s'
      else match readlines eol s' with
           | [] => [[c]]
           | l :: ls => (c :: l) :: ls
           end
  end.

(** [xs[start:]] for an integer [start] (negative: counted from the end;
    out of range: clamped). *)
Definition slice_from (start : Z) (xs : list A) : list A :=
  let n := Z.of_nat (length xs) in
  let s := if start <? 0 then Z.max 0 (start + n) else Z.min start n in
  drop (Z.to_nat s) xs.

End Sequences.

(** Universal newlines, as applied by a text file opened with the default
    [newline=None]: ["\r\n"] and a lone ["\r"] are read as ["\n"]. *)
Fixpoint translate_newlines (s : str) : str :=
  match s with
  | [] => []
  | c :: s' =>
      if decide (c = CR) then
        match s' with
        | c' :: s'' =>
            if decide (c' = LF) then LF :: translate_newlines s''
            else LF :: translate_newlines s'
        | [] => [LF]
        end
      else c :: translate_newlines s'
  end.

End Py.

Import Py.

(** ** The UTF-8 codec (strict error handling)

    [str.encode('utf-8')] and [bytes.decode('utf-8')]: surrogates and values
    above U+10FFFF cannot be encoded; overlong forms, surrogates, stray
    continuation bytes and truncated sequences cannot be decoded. *)

Module Utf8.

Definition byte_of_N (n : N) : byte :=
  match Byte.of_N n with Some b => b | None => x00 end.

Definition is_surrogate (c : N) : bool :=
  ((55296 <=? c) && (c <? 57344))%N.

(** A code point that UTF-8 can encode. *)
Definition scalar (c : N) : bool :=
  ((c <? 1114112) && negb (is_surrogate c))%N.

Definition encode_char (c : N) : option bytes :=
  (if c <? 128 then Some [byte_of_N c]
   else if c <? 2048 then
     Some [byte_of_N (192 + c / 64); byte_of_N (128 + c mod 64)]
   else if c <? 65536 then
     if is_surrogate c then None
     else Some [byte_of_N (224 + c / 4096);
                byte_of_N (128 + (c / 64) mod 64);
                byte_of_N (128 + c mod 64)]
   else if c <? 1114112 then
     Some [byte_of_N (240 + c / 262144);
           byte_of_N (128 + (c / 4096) mod 64);
           byte_of_N (128 + (c / 64) mod 64);
           byte_of_N (128 + c mod 64)]
   else None)%N.

Fixpoint encode (s : str) : option bytes :=
  match s with
  | [] => Some []
  | c :: s' =>
      match encode_char c, encode s' with
      | Some bs, Some r => Some (bs ++ r)
      | _, _ => None
      end
  end.

(** Payload of a continuation byte [10xxxxxx]. *)
Definition cont (b : byte) : option N :=
  let n := Byte.to_N b in
  (if (128 <=? n) && (n <? 192) then Some (n - 128) else None)%N.

Fixpoint decode (bs : bytes) : option str :=
  match bs with
  | [] => Some []
  | b0 :: r0 =>
      let n0 := Byte.to_N b0 in
      (if n0 <? 128 then cons n0 <$> decode r0
       else if n0 <? 194 then None
       else if n0 <? 224 then
         match r0 with
         | b1 :: r1 =>
             match cont b1 with
             | Some x1 => cons ((n0 - 192) * 64 + x1) <$> decode r1
             | None => None
             end
         | _ => None
         end
       else if n0 <? 240 then
         match r0 with
         | b1 :: b2 :: r2 =>
             match cont b1, cont b2 with
             | Some x1, Some x2 =>
                 let c := (n0 - 224) * 4096 + x1 * 64 + x2 in
                 if (c <? 2048) || is_surrogate c then None
                 else cons c <$> decode r2
             | _, _ => None
             end
         | _ => None
         end
       else if n0 <? 245 then
         match r0 with
         | b1 :: b2 :: b3 :: r3 =>
             match cont b1, cont b2, cont b3 with
             | Some x1, Some x2, Some x3 =>
                 let c := (n0 - 240) * 262144 + x1 * 4096 + x2 * 64 + x3 in
                 if (c <? 65536) || negb (c <? 1114112) then None
                 else cons c <$> decode r3
             | _, _, _ => None
             end
         | _ => None
         end
       else None)%N
  end.

End Utf8.

(** ** Exceptions, the environment and the method monad *)

Inductive exn : Type :=
| OSError              (* I/O failures, with its subclasses *)
| TypeError
| UnicodeDecodeError
| UnicodeEncodeError
| ConfigError.         (* the configuration store has no such option *)

Inductive result (A : Type) : Type :=
| Ok (a : A)
| Raise (e : exn).
Arguments Ok {A} a.
Arguments Raise {A} e.

(** A node of the file system. *)
Inductive node : Type :=
| File (content : bytes)
| Dir (mode : N).

(** Outcome of the system calls a method may make, chosen by the
    environment. *)
Record Env : Type := {
  makedirs_ok : bool;          (* [os.makedirs] in the parser *)
  open_read_ok : bool;         (* [open] for reading *)
  remove_ok : bool;            (* [os.remove] *)
  parent_ok : bool;            (* directory creation in the atomic writer *)
  tmp_name : option string;    (* name of the temporary file; [None]: it
                                  cannot be opened *)
  write_ok : bool;             (* writing and flushing the buffer *)
  fsync_ok : bool;
  rename_ok : bool
}.

(** The state a method runs in: the object, the file system, and the values
    of the configuration store by (section, option). *)
Record State (O : Type) : Type := {
  self : O;
  fs : gmap string node;
  conf : gmap (string * string) Z
}.
Arguments self {O} s.
Arguments fs {O} s.
Arguments conf {O} s.

Definition set_self {O P} (o : P) (s : State O) : State P :=
  {| self := o; fs := fs s; conf := conf s |}.

Definition set_fs {O} (f : gmap string node) (s : State O) : State O :=
  {| self := self s; fs := f; conf := conf s |}.

Definition M (O A : Type) : Type := State O -> result A * State O.

(** The monad structure, with stdpp's notations [x ← m; k] and [m;; k].
    An exception ends the computation and keeps the state reached. *)
#[global] Instance M_ret {O} : MRet (M O) := fun A a s => (Ok a, s).

#[global] Instance M_bind {O} : MBind (M O) :=
  fun A B f m s =>
    match m s with
    | (Ok a, s') => f a s'
    | (Raise e, s') => (Raise e, s')
    end.

Definition raise {O A} (e : exn) : M O A := fun s => (Raise e, s).

Definition get_self {O} : M O O := fun s => (Ok (self s), s).

Definition put_self {O} (o : O) : M O unit := fun s => (Ok tt, set_self o s).

Definition lift {O A} (r : result A) : M O A := fun s => (r, s).

(** Runs [m]; when it raises, runs the handler [h] and raises again. *)
Definition on_error {O A} (m : M O A) (h : M O unit) : M O A :=
  fun s =>
    match m s with
    | (Ok a, s') => (Ok a, s')
    | (Raise e, s') => (Raise e, snd (h s'))
    end.

(** Runs a method of the superclass on the part of [self] it owns. *)
Definition as_super {O P A} (get : O -> P) (set : P -> O -> O) (m : M P A)
  : M O A :=
  fun s =>
    let '(r, s') := m (set_self (get (self s)) s) in
    (r, set_self (set (self s') (self s)) s').

(** ** Operating-system calls *)

Module OS.

Definition slash : ascii := "/"%char.

(** [a.endswith('/')] *)
Definition endswith_slash (a : string) : bool :=
  match last (list_ascii_of_string a) with
  | Some c => bool_decide (c = slash)
  | None => false
  end.

(** [b.startswith('/')] *)
Definition startswith_slash (b : string) : bool :=
  match b with
  | String c _ => bool_decide (c = slash)
  | EmptyString => false
  end.

(** [os.path.join(a, b)] (posixpath) *)
Definition path_join (a b : string) : string :=
  if startswith_slash b then b
  else if bool_decide (a = EmptyString) || endswith_slash a then (a +:+ b)%string
  else (a +:+ "/" +:+ b)%string.

(** [p[:p.rfind('/') + 1]] *)
Fixpoint upto_last_slash (p : list ascii) : list ascii :=
  match p with
  | [] => []
  | c :: p' =>
      match upto_last_slash p' with
      | [] => if bool_decide (c = slash) then [c] else []
      | h => c :: h
      end
  end.

(** [os.path.dirname(p)] (posixpath): the part up to the last slash,
    without its trailing slashes unless it consists of slashes only. *)
Definition path_dirname (p : string) : string :=
  let head := upto_last_slash (list_ascii_of_string p) in
  string_of_list_ascii
    (if forallb (fun c => bool_decide (c = slash)) head then head
     else rstrip [slash] head).

Section Calls.
Context {O : Type}.

(** [os.path.exists(p)] *)
Definition path_exists (p : string) : M O bool :=
  fun s => (Ok (bool_decide (is_Some (fs s !! p))), s).

(** [os.path.isfile(p)] *)
Definition path_isfile (p : string) : M O bool :=
  fun s =>
    (Ok match fs s !! p with Some (File _) => true | _ => false end, s).

(** [os.makedirs(p, mode)]: fails when [p] exists already. *)
Definition makedirs (permitted : bool) (p : string) (mode : N) : M O unit :=
  fun s =>
    match fs s !! p with
    | Some _ => (Raise OSError, s)
    | None =>
        if permitted then (Ok tt, set_fs (<[p := Dir mode]> (fs s)) s)
        else (Raise OSError, s)
    end.

(** [os.remove(p)]: removes a regular file. *)
Definition remove (env : Env) (p : string) : M O unit :=
  fun s =>
    match fs s !! p with
    | Some (File _) =>
        if remove_ok env then (Ok tt, set_fs (delete p (fs s)) s)
        else (Raise OSError, s)
    | _ => (Raise OSError, s)
    end.

(** [open(p, 'rb')]: the content of a regular file. *)
Definition open_read (env : Env) (p : string) : M O bytes :=
  fun s =>
    match fs s !! p with
    | Some (File c) =>
        if open_read_ok env then (Ok c, s) else (Raise OSError, s)
    | _ => (Raise OSError, s)
    end.

End Calls.

End OS.

(** Modelled from the spec: [config.get(section, option)] of the
    configuration store, which is not among the sources: it gives the
    integer held for the key (section 6), and raises when there is none. *)
Definition config_get {O} (section option : string) : M O Z :=
  fun s =>
    match conf s !! (section, option) with
    | Some v => (Ok v, s)
    | None => (Raise ConfigError, s)
    end.

(** ** The atomic file writer *)

(** A file object open for writing: what has been written so far.  In text
    mode it encodes what it is given as UTF-8. *)
Record writer (binary : bool) : Type := { pending : bytes }.
Arguments pending {binary} w.

(** A file object open for reading. *)
Record reader (binary : bool) : Type := { content : bytes }.
Arguments content {binary} r.

(** Modelled from the spec: [fp.write(s)] on the handle that
    [qtutils.savefile_open] yields.  Bytes are appended as they are; text is
    encoded as UTF-8 (section 6), a newline being written as it is
    (POSIX). *)
Definition fp_write {binary : bool}
  : line binary -> writer binary -> result (writer binary) :=
  match binary as b return line b -> writer b -> result (writer b) with
  | true => fun s fp => Ok {| pending := pending fp ++ s |}
  | false => fun s fp =>
      match Utf8.encode s with
      | Some bs => Ok {| pending := pending fp ++ bs |}
      | None => Raise UnicodeEncodeError
      end
  end.

(** [f.readlines()]: in text mode the content is decoded and universal
    newlines apply. *)
Definition f_readlines {binary : bool}
  : reader binary -> result (list (line binary)) :=
  match binary as b return reader b -> result (list (line b)) with
  | true => fun f => Ok (readlines LF_byte (content f))
  | false => fun f =>
      match Utf8.decode (content f) with
      | Some s => Ok (readlines LF (translate_newlines s))
      | None => Raise UnicodeDecodeError
      end
  end.

Module AtomicFileWriter.
Section Steps.
Context {O : Type}.

(** Modelled from the spec: the steps of the scoped writer of section 4.1,
    [qtutils.savefile_open], which is not among the sources.

    Opening the temporary file: the environment names it, and it must not
    exist yet. *)
Definition open_temp (env : Env) : M O string :=
  fun s =>
    match tmp_name env with
    | None => (Raise OSError, s)
    | Some t =>
        match fs s !! t with
        | Some _ => (Raise OSError, s)
        | None => (Ok t, set_fs (<[t := File []]> (fs s)) s)
        end
    end.

(** Modelled from the spec: the buffer is written out to the temporary
    file. *)
Definition flush (env : Env) (tmp : string) (buf : bytes) : M O unit :=
  fun s =>
    if write_ok env then (Ok tt, set_fs (<[tmp := File buf]> (fs s)) s)
    else (Raise OSError, s).

(** Modelled from the spec: fsync of the temporary file. *)
Definition fsync (env : Env) : M O unit :=
  fun s => if fsync_ok env then (Ok tt, s) else (Raise OSError, s).

(** Modelled from the spec: the temporary file is renamed over the
    target. *)
Definition rename (env : Env) (tmp target : string) : M O unit :=
  fun s =>
    match fs s !! tmp with
    | Some n =>
        if rename_ok env
        then (Ok tt, set_fs (<[target := n]> (delete tmp (fs s))) s)
        else (Raise OSError, s)
    | None => (Raise OSError, s)
    end.

(** Modelled from the spec: the temporary file is removed. *)
Definition discard (tmp : string) : M O unit :=
  fun s => (Ok tt, set_fs (delete tmp (fs s)) s).

(** Modelled from the spec: the writer makes sure that the directory of
    [filename] exists, with mode 0755; a file name without directory part
    lives in the current directory. *)
Definition ensure_parent (env : Env) (filename : string) : M O unit :=
  let parent := OS.path_dirname filename in
  ex ← OS.path_exists parent;
  if bool_decide (parent = EmptyString) || ex then mret tt
  else OS.makedirs (parent_ok env) parent 493.

(** Modelled from the spec: the scope of the handle.  The body writes into
    the buffer of the temporary file, which is then flushed, fsynced and
    renamed over [filename]; whatever fails, the temporary file is
    removed. *)
Definition write_scope (env : Env) (filename : string) (binary : bool)
    (body : writer binary -> result (writer binary)) : M O unit :=
  tmp ← open_temp env;
  on_error
    (fp ← lift (body {| pending := [] |});
     flush env tmp (pending fp);;
     fsync env;;
     rename env tmp filename)
    (discard tmp).

(** Modelled from the spec: [qtutils.savefile_open], the scoped writer
    of section 4.1, is not among the sources.  It ensures that the parent
    directory exists, hands the body a handle on a temporary file, and on
    normal exit flushes, fsyncs and renames the temporary file over
    [filename]; on any error the temporary file is removed and
    [filename] is not touched. *)
Definition savefile_open (env : Env) (filename : string) (binary : bool)
    (body : writer binary -> result (writer binary)) : M O unit :=
  ensure_parent env filename;;
  write_scope env filename binary body.

End Steps.
End AtomicFileWriter.

(** ** [BaseLineParser] and [LineParser] *)

(** The attributes of a [LineParser]; [_binary] is the index of the type.
    [BaseLineParser] has the same attributes without [data] and is only used
    through its subclasses. *)
Record LineParser (binary : bool) : Type := {
  _configdir : string;
  _configfile : string;
  _fname : string;
  data : list (line binary)
}.
Arguments _configdir {binary} l.
Arguments _configfile {binary} l.
Arguments _fname {binary} l.
Arguments data {binary} l.

Definition set_data {binary} (d : list (line binary)) (p : LineParser binary)
  : LineParser binary :=
  {| _configdir := _configdir p; _configfile := _configfile p;
     _fname := _fname p; data := d |}.

Section BaseLineParser.
Context {binary : bool}.

(** [BaseLineParser._prepare_save] *)
Definition _prepare_save (env : Env) : M (LineParser binary) unit :=
  self ← get_self;
  ex ← OS.path_exists (_configdir self);
  if negb ex then OS.makedirs (makedirs_ok env) (_configdir self) 493
  else mret tt.

(** [BaseLineParser._open_for_reading] *)
Definition _open_for_reading (env : Env)
  : M (LineParser binary) (reader binary) :=
  self ← get_self;
  c ← OS.open_read env (_configfile self);
  mret {| content := c |}.

End BaseLineParser.

(** [BaseLineParser._write] *)
Definition _write {binary : bool}
  : writer binary -> list (line binary) -> result (writer binary) :=
  match binary as b return writer b -> list (line b) -> result (writer b) with
  | true => fun fp data => fp_write (binary := true) (join [LF_byte] data) fp
  | false => fun fp data => fp_write (binary := false) (join [LF] data) fp
  end.

(** [LineParser._read] *)
Definition _read {binary : bool} (env : Env) : M (LineParser binary) unit :=
  f ← _open_for_reading env;
  lines ← lift (f_readlines f);
  self ← get_self;
  put_self
    (set_data
       (match binary as b return list (line b) -> list (line b) with
        | true => fun ls => map (rstrip [LF_byte]) ls
        | false => fun ls => map (rstrip [LF]) ls
        end lines)
       self).

(** Runs the body of a constructor on a new object and returns the object. *)
Definition construct {O A} (blank : O) (body : M O A) : M unit O :=
  fun s =>
    match body (set_self blank s) with
    | (Ok _, s') => (Ok (self s'), set_self tt s')
    | (Raise e, s') => (Raise e, set_self tt s')
    end.

(** [LineParser.__init__]; [data] is unset until the body assigns it. *)
Definition LineParser_init {binary : bool} (env : Env)
    (configdir fname : string) : M unit (LineParser binary) :=
  construct
    ({| _configdir := configdir;
        _configfile := OS.path_join configdir fname;
        _fname := fname;
        data := [] |} : LineParser binary)
    (self ← get_self;
     isfile ← OS.path_isfile (_configfile self);
     if negb isfile then put_self (set_data [] self)
     else _read env).

(** [LineParser.save] *)
Definition LineParser_save {binary : bool} (env : Env)
  : M (LineParser binary) unit :=
  self ← get_self;
  ex ← OS.path_exists (_configdir self);
  (if negb ex then OS.makedirs (makedirs_ok env) (_configdir self) 493
   else mret tt);;
  AtomicFileWriter.savefile_open env (_configfile self) binary
    (fun f => _write f (data self)).

(** ** [LineParser.__iter__] and [LineParser.__getitem__] *)

(** A key of [xs[key]]: an integer, or a slice [start:stop:step] whose parts
    may be left out. *)
Inductive subscript : Type :=
| Index (i : Z)
| Slice (start stop step : option Z).

(** What [xs[key]] evaluates to: an element, a new list, or one of the two
    exceptions that subscripting a list can raise. *)
Inductive got (A : Type) : Type :=
| Element (a : A)
| Sublist (l : list A)
| IndexError
| ValueError.
Arguments Element {A} a.
Arguments Sublist {A} l.
Arguments IndexError {A}.
Arguments ValueError {A}.

(** A slice bound brought into range for a list of length [len]: counted
    from the end when negative, then clamped. *)
Definition adjust_index (len step v : Z) : Z :=
  if v <? 0 then
    if v + len <? 0 then (if step <? 0 then -1 else 0) else v + len
  else if len <=? v then (if step <? 0 then len - 1 else len)
  else v.

(** The positions that the slice [start:stop:step] selects, in order, for
    [step <> 0]. *)
Definition slice_positions (len : Z) (start stop : option Z) (step : Z)
  : list Z :=
  let first := match start with
               | Some v => adjust_index len step v
               | None => if step <? 0 then len - 1 else 0
               end in
  let bound := match stop with
               | Some v => adjust_index len step v
               | None => if step <? 0 then -1 else len
               end in
  let count := if step <? 0
               then (if bound <? first
                     then (first - bound - 1) / (- step) + 1 else 0)
               else (if first <? bound
                     then (bound - first - 1) / step + 1 else 0) in
  map (fun j => first + Z.of_nat j * step) (seq 0 (Z.to_nat count)).

(** [xs[key]] *)
Definition list_getitem {A} (xs : list A) (k : subscript) : got A :=
  match k with
  | Index i =>
      let n := Z.of_nat (length xs) in
      let j := if i <? 0 then i + n else i in
      if (j <? 0) || (n <=? j) then IndexError
      else match xs !! Z.to_nat j with
           | Some x => Element x
           | None => IndexError
           end
  | Slice start stop step =>
      let st := default 1 step in
      if st =? 0 then ValueError
      else Sublist (omap (fun p => xs !! Z.to_nat p)
                      (slice_positions (Z.of_nat (length xs)) start stop st))
  end.

(** [LineParser.__iter__]: the records that the iterator yields, in
    order. *)
Definition LineParser_iter {binary : bool} (p : LineParser binary)
  : list (line binary) :=
  data p.

(** [LineParser.__getitem__] *)
Definition LineParser_getitem {binary : bool} (p : LineParser binary)
    (k : subscript) : got (line binary) :=
  list_getitem (data p) k.

(** ** [LimitLineParser] *)

(** [connected] records whether [cleanup_file] has been connected to the
    [changed] signal of the configuration object. *)
Record LimitLineParser (binary : bool) : Type := {
  parser : LineParser binary;
  _limit : option (string * string);
  connected : bool
}.
Arguments parser {binary} l.
Arguments _limit {binary} l.
Arguments connected {binary} l.

Definition set_parser {binary} (p : LineParser binary)
    (l : LimitLineParser binary) : LimitLineParser binary :=
  {| parser := p; _limit := _limit l; connected := connected l |}.

(** [LimitLineParser.__init__] *)
Definition LimitLineParser_init {binary : bool} (env : Env)
    (configdir fname : string) (limit : option (string * string))
  : M unit (LimitLineParser binary) :=
  p ← LineParser_init env configdir fname;
  mret {| parser := p; _limit := limit;
          connected := bool_decide (limit ≠ None) |}.

(** [LimitLineParser.cleanup_file] *)
Definition cleanup_file {binary : bool} (env : Env) (section option : string)
  : M (LimitLineParser binary) unit :=
  self ← get_self;
  if bool_decide (Some (section, option) ≠ _limit self) then mret tt
  else
    value ← config_get section option;
    if bool_decide (value = 0) then
      ex ← OS.path_exists (_configfile (parser self));
      if (ex : bool) then OS.remove env (_configfile (parser self)) else mret tt
    else mret tt.

(** [LimitLineParser.save]; [config.get( *None)] is a [TypeError]. *)
Definition LimitLineParser_save {binary : bool} (env : Env)
  : M (LimitLineParser binary) unit :=
  self ← get_self;
  limit ← match _limit self with
           | Some (section, option) => config_get section option
           | None => raise TypeError
           end;
  if bool_decide (limit = 0) then mret tt
  else
    as_super parser set_parser (_prepare_save env);;
    AtomicFileWriter.savefile_open env (_configfile (parser self)) binary
      (fun f => _write f (slice_from (- limit) (data (parser self)))).

(** ** Notions used to state the properties *)

(** The content of the regular file at [q], if there is one. *)
Definition file_content (f : gmap string node) (q : string) : option bytes :=
  match f !! q with
  | Some (File c) => Some c
  | _ => None
  end.

(** What a record, or the joined records, are written as: themselves in
    binary mode, their UTF-8 encoding in text mode, if they have one. *)
Definition encoded {binary : bool} : line binary -> option bytes :=
  match binary as b return line b -> option bytes with
  | true => fun r => Some r
  | false => fun r => Utf8.encode r
  end.

(** The bytes that stand for a record on disk. *)
Definition on_disk {binary : bool} : line binary -> bytes :=
  match binary as b return line b -> bytes with
  | true => fun r => r
  | false => fun r => default [] (Utf8.encode r)
  end.

(** A record that can be written: in text mode its code points must be
    encodable. *)
Definition writable {binary : bool} : line binary -> Prop :=
  match binary as b return line b -> Prop with
  | true => fun _ => True
  | false => fun r => Forall (fun c => Utf8.scalar c = true) r
  end.

(** A record that reads back as one line: it has no newline and, in text
    mode, no carriage return either. *)
Definition one_line {binary : bool} : line binary -> Prop :=
  match binary as b return line b -> Prop with
  | true => fun r => LF_byte ∉ r
  | false => fun r => (LF ∉ r) /\ (CR ∉ r)
  end.

(** The file system once [d] has been made sure to exist. *)
Definition with_dir (d : string) (f : gmap string node) : gmap string node :=
  match f !! d with
  | Some _ => f
  | None => <[d := Dir 493]> f
  end.

(** The file system once the parent directory of [file] has been made sure
    to exist by the atomic writer. *)
Definition with_parent (file : string) (f : gmap string node)
  : gmap string node :=
  if bool_decide (OS.path_dirname file = EmptyString) then f
  else with_dir (OS.path_dirname file) f.

(** Every system call that a save of [file] under the directory [dir]
    makes, starting from the file system [f], succeeds under [env]: the
    directories can be created where they are missing, the temporary file
    has a name that is not taken, and writing, fsync and rename succeed. *)
Definition calls_succeed (env : Env) (f : gmap string node)
    (dir file : string) : Prop :=
  (is_Some (f !! dir) \/ makedirs_ok env = true) /\
  (OS.path_dirname file = EmptyString \/
   is_Some (with_dir dir f !! OS.path_dirname file) \/
   parent_ok env = true) /\
  (exists t, tmp_name env = Some t /\
             with_parent file (with_dir dir f) !! t = None) /\
  write_ok env = true /\ fsync_ok env = true /\ rename_ok env = true.

(** What both [save] methods do once they have decided to write: make sure
    [dir] exists, then write [file] through the atomic writer. *)
Definition save_to {O} {binary : bool} (env : Env) (dir file : string)
    (body : writer binary -> result (writer binary)) : M O unit :=
  ex ← OS.path_exists dir;
  (if negb ex then OS.makedirs (makedirs_ok env) dir 493 else mret tt);;
  AtomicFileWriter.savefile_open env file binary body.

Section SpecWords.
Context {A : Type} `{EqDecision A}.

(** Serialisation in the words of the specification: every record but the
    last is followed by one terminator, the last record by none. *)
Definition spec_serialize (eol : A) (d : list (list A)) : list A :=
  match d with
  | [] => []
  | r0 :: _ =>
      concat (map (fun r => r ++ [eol]) (removelast d)) ++ List.last d r0
  end.

(** Splitting on the terminator: a line ends with each terminator; what
    follows the last terminator is a line when it is not empty. *)
Fixpoint lines_from (eol : A) (cur : list A) (s : list A)
  : list (list A) :=
  match s with
  | [] => match cur with [] => [] | _ => [cur] end
  | c :: s' =>
      if decide (c = eol) then (cur ++ [c]) :: lines_from eol [] s'
      else lines_from eol (cur ++ [c]) s'
  end.

(** Stripping exactly one trailing terminator, and nothing else. *)
Definition strip_one (eol : A) (l : list A) : list A :=
  match last l with
  | Some c => if decide (c = eol) then removelast l else l
  | None => l
  end.

(** Loading in the words of the specification. *)
Definition spec_load (eol : A) (s : list A) : list (list A) :=
  map (strip_one eol) (lines_from eol [] s).

End SpecWords.

(** The text that loading splits, as the specification has it: the raw
    content in binary mode, the UTF-8 decoding of the content in text
    mode. *)
Definition text_as_stated {binary : bool} : bytes -> option (line binary) :=
  match binary as b return bytes -> option (line b) with
  | true => fun c => Some c
  | false => fun c => Utf8.decode c
  end.

(** The text that loading splits: in text mode the decoded content after
    universal-newline translation. *)
Definition text_of {binary : bool} : bytes -> option (line binary) :=
  match binary as b return bytes -> option (line b) with
  | true => fun c => Some c
  | false => fun c => translate_newlines <$> Utf8.decode c
  end.

(** A text with DOS line ends: a carriage return before every newline. *)
Fixpoint to_crlf (t : str) : str :=
  match t with
  | [] => []
  | c :: t' =>
      if decide (c = LF) then CR :: LF :: to_crlf t' else c :: to_crlf t'
  end.

(** The state with the configuration replaced by [cf]. *)
Definition set_conf {O : Type} (cf : gmap (string * string) Z) (s : State O)
  : State O :=
  {| self := self s; fs := fs s; conf := cf |}.

(** ** Concrete inputs

    A history file [/cfg/history] whose limit is the option
    [("completion", "cmd-history-max-items")], used to run the methods. *)

Module Sample.

Definition dir : string := "/cfg".
Definition fname : string := "history".
Definition file : string := "/cfg/history".
Definition key : string * string := ("completion", "cmd-history-max-items")%string.

(** An environment in which every system call succeeds. *)
Definition env_ok : Env :=
  {| makedirs_ok := true; open_read_ok := true; remove_ok := true;
     parent_ok := true; tmp_name := Some "/cfg/history.XXXXXX"%string;
     write_ok := true; fsync_ok := true; rename_ok := true |}.

(** An environment in which the final rename fails. *)
Definition env_rename_fails : Env :=
  {| makedirs_ok := true; open_read_ok := true; remove_ok := true;
     parent_ok := true; tmp_name := Some "/cfg/history.XXXXXX"%string;
     write_ok := true; fsync_ok := true; rename_ok := false |}.

(** The bytes of an ASCII literal, and its code points. *)
Definition b (s : string) : bytes := list_byte_of_string s.
Definition u (s : string) : str := map Byte.to_N (list_byte_of_string s).

(** Records of a binary parser, and of a text parser. *)
Definition bin (d : list bytes) : list (line true) := d.
Definition txt (d : list str) : list (line false) := d.

Definition lp {binary : bool} (d : list (line binary)) : LineParser binary :=
  {| _configdir := dir; _configfile := file; _fname := fname; data := d |}.

Definition llp {binary : bool} (limit : option (string * string))
    (d : list (line binary)) : LimitLineParser binary :=
  {| parser := lp d; _limit := limit;
     connected := bool_decide (limit ≠ None) |}.

(** A state with the given object and files, the limit option being set to
    [limit]. *)
Definition state {O : Type} (o : O) (files : gmap string node) (limit : Z)
  : State O :=
  {| self := o; fs := files; conf := {[ key := limit ]} |}.

(** The configuration directory with a history file of content [c]. *)
Definition files_with (c : bytes) : gmap string node :=
  <[file := File c]> {[ dir := Dir 493 ]}.

End Sample.

(** * Lemmas *)

(** ** The sequence operations *)

Section SequenceFacts.
Context {A : Type} `{EqDecision A}.
Implicit Types (eol c : A) (s r : list A) (d : list (list A)).

Lemma rstrip_id chars s :
  Forall (fun c => c ∉ chars) s -> rstrip chars s = s.
Proof.
  induction 1 as [|c s Hc _ IH]; simpl; [done|].
  rewrite IH. destruct s; [|done]. by rewrite decide_False.
Qed.

Lemma rstrip_terminated chars s c :
  c ∈ chars -> Forall (fun x => x ∉ chars) s -> rstrip chars (s ++ [c]) = s.
Proof.
  intros Hc. induction 1 as [|x s Hx _ IH]; simpl.
  - by rewrite decide_True.
  - rewrite IH. destruct s; [|done]. by rewrite decide_False.
Qed.

Lemma not_elem_of_singleton_list eol s :
  eol ∉ s -> Forall (fun x => x ∉ [eol]) s.
Proof.
  intros Hs. apply Forall_forall. intros x Hx Hin.
  apply list_elem_of_singleton in Hin. by subst.
Qed.

(** A line without terminator is read as one line. *)
Lemma readlines_unterminated eol s :
  eol ∉ s -> s ≠ [] -> readlines eol s = [s].
Proof.
  induction s as [|c s IH]; [done|]. intros Hs _.
  apply not_elem_of_cons in Hs as [Hc Hs]. simpl.
  rewrite decide_False by done.
  destruct s as [|c' s']; [done|]. by rewrite IH.
Qed.

(** A terminated line is read off the front of the content. *)
Lemma readlines_terminated eol s r :
  eol ∉ s -> readlines eol (s ++ eol :: r) = (s ++ [eol]) :: readlines eol r.
Proof.
  induction s as [|c s IH]; intros Hs; simpl.
  - by rewrite decide_True.
  - apply not_elem_of_cons in Hs as [Hc Hs].
    rewrite decide_False by done. by rewrite IH.
Qed.

(** Every line that [readlines] returns is not empty and has no terminator
    except possibly as its last element. *)
Lemma readlines_shape eol s :
  Forall (fun l => exists body, (eol ∉ body) /\
                     ((l = body ++ [eol]) \/ (l = body /\ body ≠ [])))
         (readlines eol s).
Proof.
  induction s as [|c s IH]; simpl; [constructor|].
  destruct (decide (c = eol)) as [->|Hc].
  - constructor; [|done]. exists []. split; [apply not_elem_of_nil|by left].
  - destruct (readlines eol s) as [|l ls].
    + repeat constructor. exists [c]. split; [|by right].
      by apply not_elem_of_cons; split; [|apply not_elem_of_nil].
    + apply Forall_cons in IH as [(body & Hb & Hl) IH].
      constructor; [|done]. exists (c :: body).
      split; [by apply not_elem_of_cons|].
      destruct Hl as [->|[-> _]]; [by left|by right].
Qed.

Lemma rstrip_readlines_no_eol eol s :
  Forall (fun l => eol ∉ l) (map (rstrip [eol]) (readlines eol s)).
Proof.
  apply Forall_map. eapply Forall_impl; [apply readlines_shape|].
  intros l (body & Hb & [->|[-> _]]); simpl.
  - rewrite rstrip_terminated; [done|by apply list_elem_of_singleton|].
    by apply not_elem_of_singleton_list.
  - rewrite rstrip_id; [done|]. by apply not_elem_of_singleton_list.
Qed.

(** Reading back what [join] produced. *)
Lemma readlines_join eol d :
  Forall (fun r => eol ∉ r) d ->
  last d ≠ Some [] ->
  map (rstrip [eol]) (readlines eol (join [eol] d)) = d.
Proof.
  induction 1 as [|x d Hx Hd IH]; [done|]. intros Hlast.
  destruct d as [|y d'].
  - simpl. assert (x ≠ []) by (intros ->; by apply Hlast).
    rewrite readlines_unterminated by done. simpl.
    by rewrite rstrip_id by (by apply not_elem_of_singleton_list).
  - change (join [eol] (x :: y :: d')) with (x ++ eol :: join [eol] (y :: d')).
    rewrite readlines_terminated by done. cbn [map].
    rewrite IH by done.
    rewrite rstrip_terminated; [done|by apply list_elem_of_singleton|].
    by apply not_elem_of_singleton_list.
Qed.

(** The last [n] elements, for [0 < n <= length]. *)
Lemma slice_from_last (n : Z) (xs : list A) :
  0 < n <= Z.of_nat (length xs) ->
  slice_from (- n) xs = drop (length xs - Z.to_nat n) xs.
Proof.
  intros Hn. unfold slice_from.
  destruct (Z.ltb_spec (- n) 0); [|lia]. f_equal. lia.
Qed.

End SequenceFacts.

Section SpecWordsFacts.
Context {A : Type} `{EqDecision A}.
Implicit Types (eol c : A) (s r : list A) (d : list (list A)).

Lemma join_cons_spec eol x d dflt :
  join [eol] (x :: d) =
  concat (map (fun r => r ++ [eol]) (removelast (x :: d)))
    ++ List.last (x :: d) dflt.
Proof.
  revert x. induction d as [|y d IH]; intros x.
  - simpl. done.
  - change (join [eol] (x :: y :: d)) with (x ++ eol :: join [eol] (y :: d)).
    rewrite IH.
    change (removelast (x :: y :: d)) with (x :: removelast (y :: d)).
    change (List.last (x :: y :: d) dflt) with (List.last (y :: d) dflt).
    cbn [map concat]. by rewrite <- !app_assoc.
Qed.

(** [join] is the serialisation the specification describes. *)
Lemma join_spec eol d : join [eol] d = spec_serialize eol d.
Proof. destruct d as [|x d]; [done|]. apply join_cons_spec. Qed.

Lemma lines_from_readlines eol cur s :
  lines_from eol cur s =
  match readlines eol s with
  | [] => match cur with [] => [] | _ => [cur] end
  | l :: ls => (cur ++ l) :: ls
  end.
Proof.
  revert cur. induction s as [|c s IH]; intros cur; simpl; [done|].
  destruct (decide (c = eol)) as [->|Hc].
  - f_equal. rewrite IH. by destruct (readlines eol s).
  - rewrite IH. destruct (readlines eol s) as [|l ls].
    + by destruct cur.
    + by rewrite <- app_assoc.
Qed.

Lemma strip_one_rstrip eol body l :
  eol ∉ body -> (l = body ++ [eol]) \/ (l = body /\ body ≠ []) ->
  rstrip [eol] l = strip_one eol l.
Proof.
  intros Hb [->|[-> Hne]]; unfold strip_one.
  - rewrite rstrip_terminated;
      [|by apply list_elem_of_singleton|by apply not_elem_of_singleton_list].
    rewrite last_snoc, decide_True by done. by rewrite removelast_last.
  - rewrite rstrip_id by (by apply not_elem_of_singleton_list).
    destruct (last body) as [c|] eqn:Hl; [|done].
    rewrite decide_False; [done|]. intros ->.
    apply Hb. apply last_Some in Hl as [l' ->]. set_solver.
Qed.

(** Reading lines and stripping the newline from each is loading as the
    specification describes it. *)
Lemma load_spec eol s :
  map (rstrip [eol]) (readlines eol s) = spec_load eol s.
Proof.
  unfold spec_load. rewrite lines_from_readlines.
  replace (match readlines eol s with
           | [] => []
           | l :: ls => ([] ++ l) :: ls
           end) with (readlines eol s) by (by destruct (readlines eol s)).
  apply map_ext_Forall. eapply Forall_impl; [apply readlines_shape|].
  intros l (body & Hb & Hl). by eapply strip_one_rstrip.
Qed.

End SpecWordsFacts.

Lemma translate_newlines_id (s : str) : CR ∉ s -> translate_newlines s = s.
Proof.
  induction s as [|c s IH]; [done|]. intros Hs.
  apply not_elem_of_cons in Hs as [Hc Hs]. simpl.
  rewrite decide_False by done. by rewrite IH.
Qed.

(** ** The codec *)

Module Utf8Facts.
Import Utf8.

Ltac dlia := zify; Z.to_euclidean_division_equations; lia.

Ltac nbool :=
  repeat match goal with
    | |- context [N.ltb ?a ?b] => destruct (N.ltb_spec a b); try dlia
    | |- context [N.leb ?a ?b] => destruct (N.leb_spec a b); try dlia
    end.

Lemma to_N_byte_of_N n : (n < 256)%N -> Byte.to_N (byte_of_N n) = n.
Proof.
  intros Hn. unfold byte_of_N.
  destruct (Byte.of_N n) eqn:E.
  - by apply Byte.to_of_N.
  - apply Byte.of_N_None_iff in E. lia.
Qed.

Lemma cont_byte_of_N n : (n < 64)%N -> cont (byte_of_N (128 + n)) = Some n.
Proof.
  intros Hn. unfold cont. rewrite to_N_byte_of_N by lia.
  nbool. simpl. f_equal. lia.
Qed.

Ltac decode_step c :=
  first [ rewrite to_N_byte_of_N by dlia
        | rewrite cont_byte_of_N by dlia
        | match goal with
          | |- context [cons ?e <$> decode _] =>
              lazymatch e with
              | c => fail
              | _ => replace e with c by dlia
              end
          end
        | progress unfold is_surrogate
        | progress nbool
        | progress cbn [app decode orb andb negb] ].

(** Decoding reads back the character that was encoded. *)
Lemma decode_encode_char c bs r :
  encode_char c = Some bs -> decode (bs ++ r) = cons c <$> decode r.
Proof.
  unfold encode_char, is_surrogate.
  destruct (N.ltb_spec c 128);
    [|destruct (N.ltb_spec c 2048);
      [|destruct (N.ltb_spec c 65536);
        [destruct (N.leb_spec 55296 c); [destruct (N.ltb_spec c 57344)|]
        |destruct (N.ltb_spec c 1114112)]]];
    simpl; intros [= <-]; repeat decode_step c; done.
Qed.

Lemma decode_encode s bs : encode s = Some bs -> decode bs = Some s.
Proof.
  revert bs. induction s as [|c s IH]; intros bs; simpl.
  - by intros [= <-].
  - destruct (encode_char c) as [b1|] eqn:Ec; [|done].
    destruct (encode s) as [b2|]; [|done].
    intros [= <-]. by rewrite (decode_encode_char _ _ _ Ec), (IH _ eq_refl).
Qed.

Lemma encode_char_scalar c : scalar c = true -> is_Some (encode_char c).
Proof.
  unfold scalar, encode_char. intros [Hlt Hs]%andb_true_iff.
  apply negb_true_iff in Hs. rewrite Hs, Hlt.
  repeat case_match; eauto.
Qed.

Lemma encode_scalar s :
  Forall (fun c => scalar c = true) s -> is_Some (encode s).
Proof.
  induction 1 as [|c s Hc _ [r Hr]]; simpl; [eauto|].
  destruct (encode_char_scalar c Hc) as [bs ->]. rewrite Hr. eauto.
Qed.

Lemma encode_app s1 s2 b1 b2 :
  encode s1 = Some b1 -> encode s2 = Some b2 ->
  encode (s1 ++ s2) = Some (b1 ++ b2).
Proof.
  revert b1. induction s1 as [|c s1 IH]; intros b1; simpl.
  - by intros [= <-].
  - destruct (encode_char c) as [bc|]; [|done].
    destruct (encode s1) as [r1|]; [|done].
    intros [= <-] H2. rewrite (IH _ eq_refl H2). by rewrite <- app_assoc.
Qed.

(** The encoding of joined records is the join of their encodings. *)
Lemma encode_join (d : list str) :
  Forall (fun r => Forall (fun c => scalar c = true) r) d ->
  encode (join [LF] d) =
  Some (join [LF_byte] (map (fun r => default [] (encode r)) d)).
Proof.
  induction 1 as [|x d Hx Hd IH]; [done|].
  destruct (encode_scalar x Hx) as [bx Ebx].
  destruct d as [|y d'].
  - simpl. by rewrite Ebx.
  - change (join [LF] (x :: y :: d')) with (x ++ [LF] ++ join [LF] (y :: d')).
    rewrite (encode_app _ _ _ _ Ebx
               (encode_app [LF] _ [LF_byte] _ eq_refl IH)).
    cbn [map]. by rewrite Ebx.
Qed.

End Utf8Facts.

(** ** Running the methods *)

Ltac run :=
  unfold save_to, AtomicFileWriter.savefile_open, AtomicFileWriter.write_scope,
    AtomicFileWriter.ensure_parent, AtomicFileWriter.open_temp,
    AtomicFileWriter.flush, AtomicFileWriter.fsync, AtomicFileWriter.rename,
    AtomicFileWriter.discard, on_error, lift, raise, get_self, put_self,
    OS.path_exists, OS.path_isfile, OS.makedirs, OS.remove, OS.open_read,
    config_get, mbind, mret, M_bind, M_ret in *;
  cbn [self fs conf set_fs set_self fst snd negb orb andb] in *.

Lemma set_fs_id {O} (s : State O) : set_fs (fs s) s = s.
Proof. by destruct s. Qed.

Lemma file_content_insert_dir f d m q :
  f !! d = None -> file_content (<[d := Dir m]> f) q = file_content f q.
Proof.
  intros Hd. unfold file_content. destruct (decide (d = q)) as [->|Hne].
  - by rewrite lookup_insert_eq, Hd.
  - by rewrite lookup_insert_ne.
Qed.

Lemma file_content_with_dir d f q :
  file_content (with_dir d f) q = file_content f q.
Proof.
  unfold with_dir. destruct (f !! d) eqn:E; [done|].
  by apply file_content_insert_dir.
Qed.

Lemma file_content_with_parent p f q :
  file_content (with_parent p f) q = file_content f q.
Proof.
  unfold with_parent. case_bool_decide; [done|]. apply file_content_with_dir.
Qed.

Lemma ensure_parent_run {O} env file (s : State O) :
  AtomicFileWriter.ensure_parent env file s =
  if bool_decide (OS.path_dirname file = EmptyString)
     || bool_decide (is_Some (fs s !! OS.path_dirname file))
     || parent_ok env
  then (Ok tt, set_fs (with_parent file (fs s)) s)
  else (Raise OSError, s).
Proof.
  run. unfold with_parent, with_dir.
  case_bool_decide as Hp; cbn [orb]; [by rewrite set_fs_id|].
  case_bool_decide as Hex; cbn [orb].
  - destruct Hex as [n ->]. by rewrite set_fs_id.
  - apply eq_None_not_Some in Hex. rewrite Hex. by destruct (parent_ok env).
Qed.

Lemma write_scope_inv {O} env file binary body (s s' : State O) r :
  AtomicFileWriter.write_scope env file binary body s = (r, s') ->
  self s' = self s /\ conf s' = conf s /\
  match r with
  | Raise _ => fs s' = fs s
  | Ok _ =>
      exists fp t,
        body {| pending := [] |} = Ok fp /\
        tmp_name env = Some t /\ fs s !! t = None /\
        write_ok env = true /\ fsync_ok env = true /\ rename_ok env = true /\
        fs s' = <[file := File (pending fp)]> (fs s)
  end.
Proof.
  run. destruct s as [o f cf]; cbn [self fs conf].
  destruct (tmp_name env) as [t|]; [|by intros [= <- <-]].
  destruct (f !! t) eqn:Ht; [by intros [= <- <-]|]. cbn [self fs conf].
  destruct (body _) as [fp|e]; cbn [self fs conf].
  2:{ intros [= <- <-]. cbn. by rewrite !delete_insert_eq, delete_id. }
  destruct (write_ok env); cbn.
  2:{ intros [= <- <-]. cbn. by rewrite !delete_insert_eq, delete_id. }
  destruct (fsync_ok env); cbn.
  2:{ intros [= <- <-]. cbn. by rewrite !delete_insert_eq, delete_id. }
  rewrite lookup_insert_eq.
  destruct (rename_ok env); cbn.
  2:{ intros [= <- <-]. cbn. by rewrite !delete_insert_eq, delete_id. }
  intros [= <- <-]. cbn. do 2 (split; [done|]). exists fp, t.
  repeat (split; [done|]). by rewrite !delete_insert_eq, delete_id.
Qed.

Lemma write_scope_ok {O} env file binary body (s : State O) fp t :
  tmp_name env = Some t -> fs s !! t = None ->
  write_ok env = true -> fsync_ok env = true -> rename_ok env = true ->
  body {| pending := [] |} = Ok fp ->
  AtomicFileWriter.write_scope env file binary body s =
  (Ok tt, set_fs (<[file := File (pending fp)]> (fs s)) s).
Proof.
  intros Ht Hfresh Hw Hf Hr Hb. run.
  rewrite Ht, Hfresh, Hb, Hw. cbn. rewrite Hf. cbn.
  rewrite lookup_insert_eq, Hr. cbn.
  by rewrite !delete_insert_eq, delete_id.
Qed.

(** The atomic writer: whatever fails, no regular file changes; when
    nothing fails, the target holds what the body wrote. *)
Lemma savefile_open_inv {O} env file binary body (s s' : State O) r :
  AtomicFileWriter.savefile_open env file binary body s = (r, s') ->
  self s' = self s /\ conf s' = conf s /\
  match r with
  | Raise _ => forall q, file_content (fs s') q = file_content (fs s) q
  | Ok _ =>
      (OS.path_dirname file = EmptyString \/
       is_Some (fs s !! OS.path_dirname file) \/ parent_ok env = true) /\
      exists fp t,
        body {| pending := [] |} = Ok fp /\
        tmp_name env = Some t /\ with_parent file (fs s) !! t = None /\
        write_ok env = true /\ fsync_ok env = true /\ rename_ok env = true /\
        fs s' = <[file := File (pending fp)]> (with_parent file (fs s))
  end.
Proof.
  unfold AtomicFileWriter.savefile_open, mbind, M_bind.
  rewrite ensure_parent_run.
  destruct (_ || _ || _) eqn:Hp.
  - intros Hw. apply write_scope_inv in Hw as (Hself & Hconf & Hr).
    cbn [self conf fs set_fs] in *. do 2 (split; [done|]).
    destruct r as [[]|e].
    + split; [|done].
      apply orb_true_iff in Hp as [[Hp|Hp]%orb_true_iff|Hp];
        [left|right; left|by right; right]; by apply bool_decide_eq_true in Hp.
    + intros q. rewrite Hr. apply file_content_with_parent.
  - by intros [= <- <-].
Qed.

Lemma savefile_open_ok {O} env file binary body (s : State O) fp t :
  OS.path_dirname file = EmptyString \/
    is_Some (fs s !! OS.path_dirname file) \/ parent_ok env = true ->
  tmp_name env = Some t -> with_parent file (fs s) !! t = None ->
  write_ok env = true -> fsync_ok env = true -> rename_ok env = true ->
  body {| pending := [] |} = Ok fp ->
  AtomicFileWriter.savefile_open env file binary body s =
  (Ok tt, set_fs (<[file := File (pending fp)]> (with_parent file (fs s))) s).
Proof.
  intros Hp Ht Hfresh Hw Hf Hr Hb.
  unfold AtomicFileWriter.savefile_open, mbind, M_bind.
  rewrite ensure_parent_run.
  replace (_ || _ || _) with true.
  - by erewrite write_scope_ok.
  - symmetry. destruct Hp as [Hp|[Hp|Hp]].
    + by rewrite (bool_decide_eq_true_2 _ Hp).
    + by rewrite (bool_decide_eq_true_2 _ Hp), orb_true_r.
    + by rewrite Hp, orb_true_r.
Qed.

Lemma ensure_dir_run {O} env dir (s : State O) :
  (ex ← OS.path_exists dir;
   if negb ex then OS.makedirs (makedirs_ok env) dir 493 else mret tt) s =
  if bool_decide (is_Some (fs s !! dir)) || makedirs_ok env
  then (Ok tt, set_fs (with_dir dir (fs s)) s)
  else (Raise OSError, s).
Proof.
  run. unfold with_dir. case_bool_decide as Hex; cbn [negb orb].
  - destruct Hex as [n ->]. by rewrite set_fs_id.
  - apply eq_None_not_Some in Hex. rewrite Hex. by destruct (makedirs_ok env).
Qed.

Lemma save_to_run {O} {binary} env dir file body (s : State O) :
  save_to (binary := binary) env dir file body s =
  if bool_decide (is_Some (fs s !! dir)) || makedirs_ok env
  then AtomicFileWriter.savefile_open env file binary body
         (set_fs (with_dir dir (fs s)) s)
  else (Raise OSError, s).
Proof.
  unfold save_to.
  change ((ex ← OS.path_exists dir;
           (if negb ex then OS.makedirs (makedirs_ok env) dir 493 else mret tt);;
           AtomicFileWriter.savefile_open env file binary body) s)
    with (match (ex ← OS.path_exists dir;
                 if negb ex then OS.makedirs (makedirs_ok env) dir 493
                 else mret tt) s with
          | (Ok _, s') => AtomicFileWriter.savefile_open env file binary body s'
          | (Raise e, s') => (Raise e, s')
          end).
  rewrite ensure_dir_run. by destruct (_ || _).
Qed.

(** A save that raises changes no regular file; a save that returns has
    made every system call with success and has put what the body wrote in
    the file. *)
Lemma save_to_inv {O} {binary} env dir file body (s s' : State O) r :
  save_to (binary := binary) env dir file body s = (r, s') ->
  self s' = self s /\ conf s' = conf s /\
  match r with
  | Raise _ => forall q, file_content (fs s') q = file_content (fs s) q
  | Ok _ =>
      calls_succeed env (fs s) dir file /\
      exists fp,
        body {| pending := [] |} = Ok fp /\
        fs s' = <[file := File (pending fp)]>
                  (with_parent file (with_dir dir (fs s)))
  end.
Proof.
  rewrite save_to_run.
  destruct (bool_decide _ || _) eqn:Hd.
  - intros Hw. apply savefile_open_inv in Hw as (Hself & Hconf & Hr).
    cbn [self conf fs set_fs] in *. do 2 (split; [done|]).
    destruct r as [[]|e].
    + destruct Hr as (Hp & fp & t & ? & ? & ? & ? & ? & ? & ?).
      split; [|by exists fp].
      split; [|by eauto 10].
      apply orb_true_iff in Hd as [Hd|Hd]; [left|by right].
      by apply bool_decide_eq_true in Hd.
    + intros q. rewrite Hr. apply file_content_with_dir.
  - by intros [= <- <-].
Qed.

Lemma save_to_ok {O} {binary} env dir file body (s : State O) fp :
  calls_succeed env (fs s) dir file ->
  body {| pending := [] |} = Ok fp ->
  save_to (binary := binary) env dir file body s =
  (Ok tt, set_fs (<[file := File (pending fp)]>
                    (with_parent file (with_dir dir (fs s)))) s).
Proof.
  intros (Hmk & Hpar & (t & Ht & Hfresh) & Hw & Hf & Hr) Hb.
  rewrite save_to_run.
  replace (_ || _) with true.
  - by erewrite savefile_open_ok.
  - symmetry. destruct Hmk as [Hmk|Hmk].
    + by rewrite (bool_decide_eq_true_2 _ Hmk).
    + by rewrite Hmk, orb_true_r.
Qed.

Lemma set_parser_id {binary} (l : LimitLineParser binary) :
  set_parser (parser l) l = l.
Proof. by destruct l. Qed.

Lemma set_self_id {O} (s : State O) : set_self (self s) s = s.
Proof. by destruct s. Qed.

Lemma LineParser_save_run {binary} env (s : State (LineParser binary)) :
  LineParser_save env s =
  save_to env (_configdir (self s)) (_configfile (self s))
    (fun f => _write f (data (self s))) s.
Proof. reflexivity. Qed.

Lemma _prepare_save_run {binary} env (s : State (LineParser binary)) :
  _prepare_save env s =
  if bool_decide (is_Some (fs s !! _configdir (self s))) || makedirs_ok env
  then (Ok tt, set_fs (with_dir (_configdir (self s)) (fs s)) s)
  else (Raise OSError, s).
Proof. apply (ensure_dir_run env (_configdir (self s)) s). Qed.

Lemma LimitLineParser_save_run {binary} env
    (s : State (LimitLineParser binary)) :
  LimitLineParser_save env s =
  match _limit (self s) with
  | None => (Raise TypeError, s)
  | Some key =>
      match conf s !! key with
      | None => (Raise ConfigError, s)
      | Some limit =>
          if bool_decide (limit = 0) then (Ok tt, s)
          else save_to env (_configdir (parser (self s)))
                 (_configfile (parser (self s)))
                 (fun f => _write f (slice_from (- limit)
                                       (data (parser (self s))))) s
      end
  end.
Proof.
  unfold LimitLineParser_save, mbind, M_bind, get_self, raise, config_get.
  destruct (_limit (self s)) as [[section option]|]; [|done].
  destruct (conf s !! (section, option)) as [limit|]; [|done].
  case_bool_decide; [done|].
  rewrite save_to_run.
  unfold as_super. rewrite _prepare_save_run.
  cbn [self fs conf set_self set_fs].
  destruct (bool_decide _ || _); cbn [self fs conf set_self set_fs].
  - rewrite set_parser_id. by destruct s.
  - rewrite set_parser_id. by destruct s.
Qed.

Lemma rstrip_by_mode {binary} (ls : list (line binary)) :
  match binary as b return list (line b) -> list (line b) with
  | true => fun ls => map (rstrip [LF_byte]) ls
  | false => fun ls => map (rstrip [LF]) ls
  end ls = map (rstrip [nl binary]) ls.
Proof. by destruct binary. Qed.

Lemma f_readlines_text_of {binary} (c : bytes) :
  f_readlines (binary := binary) {| content := c |} =
  match text_of c with
  | Some t => Ok (readlines (nl binary) t)
  | None => Raise UnicodeDecodeError
  end.
Proof.
  destruct binary; [done|]. unfold f_readlines, text_of. cbn [content].
  by destruct (Utf8.decode c).
Qed.

Lemma _write_join {binary} (fp : writer binary) (d : list (line binary)) :
  _write fp d = fp_write (join [nl binary] d) fp.
Proof. by destruct binary. Qed.

(** What [_read] leaves in [data]. *)
Lemma _read_run {binary} env (s : State (LineParser binary)) :
  _read env s =
  match fs s !! _configfile (self s) with
  | Some (File c) =>
      if open_read_ok env then
        match text_of c with
        | Some t =>
            (Ok tt, set_self (set_data (map (rstrip [nl binary])
                                          (readlines (nl binary) t))
                                (self s)) s)
        | None => (Raise UnicodeDecodeError, s)
        end
      else (Raise OSError, s)
  | _ => (Raise OSError, s)
  end.
Proof.
  unfold _read, _open_for_reading. run.
  destruct (fs s !! _configfile (self s)) as [[c|m]|]; [|done..].
  destruct (open_read_ok env); [|done].
  rewrite f_readlines_text_of. destruct (text_of c); [|done].
  cbn [self]. by rewrite rstrip_by_mode.
Qed.

(** What the constructor returns. *)
Lemma LineParser_init_run {binary} env configdir fname (w : State unit) :
  LineParser_init (binary := binary) env configdir fname w =
  let file := OS.path_join configdir fname in
  let obj d := {| _configdir := configdir; _configfile := file;
                  _fname := fname; data := d |} in
  match file_content (fs w) file with
  | None => (Ok (obj []), w)
  | Some c =>
      if open_read_ok env then
        match text_of c with
        | Some t => (Ok (obj (map (rstrip [nl binary])
                                (readlines (nl binary) t))), w)
        | None => (Raise UnicodeDecodeError, w)
        end
      else (Raise OSError, w)
  end.
Proof.
  destruct w as [[] f cf].
  unfold LineParser_init, construct, file_content. run.
  cbn [_configfile].
  destruct (f !! OS.path_join configdir fname) as [[c|m]|] eqn:Hf;
    cbn [negb]; [|done..].
  rewrite _read_run. cbn [set_self self fs conf _configfile].
  rewrite Hf. destruct (open_read_ok env); [|done].
  by destruct (text_of c).
Qed.

Lemma _write_ok {binary} (d : list (line binary)) :
  Forall writable d ->
  _write {| pending := [] |} d =
  Ok {| pending := join [LF_byte] (map on_disk d) |}.
Proof.
  destruct binary; intros Hd.
  - cbn. by rewrite map_id.
  - cbn -[join]. by rewrite (Utf8Facts.encode_join d Hd).
Qed.

Lemma file_content_insert f q c :
  file_content (<[q := File c]> f) q = Some c.
Proof. unfold file_content. by rewrite lookup_insert_eq. Qed.

Lemma elem_of_join {A} (x : A) sep (d : list (list A)) :
  x ∈ join sep d -> x ∈ sep \/ Exists (fun r => x ∈ r) d.
Proof.
  induction d as [|r d IH]; [by intros ?%elem_of_nil|].
  destruct d as [|r' d'].
  - intros Hx. right. by left.
  - change (join sep (r :: r' :: d')) with (r ++ sep ++ join sep (r' :: d')).
    intros [Hx|[Hx|Hx]%elem_of_app]%elem_of_app.
    + right. by left.
    + by left.
    + destruct (IH Hx) as [?|?]; [by left|right; by right].
Qed.

(** Decoding what was written gives the joined records back. *)
Lemma text_of_on_disk {binary} (d : list (line binary)) :
  Forall writable d -> Forall one_line d ->
  text_of (join [LF_byte] (map on_disk d)) = Some (join [nl binary] d).
Proof.
  destruct binary; intros Hw Hl.
  - cbn -[join]. by rewrite map_id.
  - unfold text_of, on_disk, nl. change (line false) with str in *.
    rewrite (Utf8Facts.decode_encode _ _ (Utf8Facts.encode_join d Hw)).
    cbn [fmap option_fmap option_map]. f_equal. apply translate_newlines_id.
    intros [Hin|Hin]%elem_of_join.
    + by apply list_elem_of_singleton in Hin.
    + apply Exists_exists in Hin as (r & Hr & Hcr).
      rewrite Forall_forall in Hl. by destruct (Hl r Hr).
Qed.

Lemma one_line_no_nl {binary} (d : list (line binary)) :
  Forall one_line d -> Forall (fun r => nl binary ∉ r) d.
Proof.
  intros Hl. eapply Forall_impl; [exact Hl|].
  destruct binary; cbn; [done|]. by intros r [? _].
Qed.

Lemma save_to_twice {O} {binary} env1 env2 dir file body
    (s s1 s2 : State O) r :
  save_to (binary := binary) env1 dir file body s = (Ok tt, s1) ->
  save_to (binary := binary) env2 dir file body s1 = (r, s2) ->
  file_content (fs s2) file = file_content (fs s1) file /\
  (calls_succeed env2 (fs s1) dir file -> r = Ok tt).
Proof.
  intros H1 H2. split.
  - apply save_to_inv in H1 as (_ & _ & _ & fp1 & Hb1 & Hfs1).
    apply save_to_inv in H2 as (_ & _ & Hr). destruct r as [[]|e]; [|done].
    destruct Hr as (_ & fp2 & Hb2 & Hfs2).
    rewrite Hfs1, Hfs2, !file_content_insert. congruence.
  - intros Hok. apply save_to_inv in H1 as (_ & _ & _ & fp1 & Hb1 & _).
    rewrite (save_to_ok _ _ _ _ _ _ Hok Hb1) in H2. congruence.
Qed.

(** ** The definitions on concrete inputs *)

Example join_three :
  join [LF_byte] [Sample.b "a"; []; Sample.b "b"]
  = [ "a"; x0a; x0a; "b" ]%byte.
Proof. reflexivity. Qed.

Example readlines_keeps_terminators :
  readlines LF_byte [ "a"; x0a; x0a; "b" ]%byte
  = [ [ "a"; x0a ]; [ x0a ]; [ "b" ] ]%byte.
Proof. reflexivity. Qed.

Example rstrip_all_trailing :
  rstrip [LF_byte] [ x0a; "a"; x0a; x0a ]%byte = [ x0a; "a" ]%byte.
Proof. reflexivity. Qed.

Example slice_from_examples :
  slice_from (-2) [1; 2; 3] = [2; 3] /\
  slice_from (-5) [1; 2; 3] = [1; 2; 3] /\
  slice_from 1 [1; 2; 3] = [2; 3] /\
  slice_from 0 [1; 2; 3] = [1; 2; 3].
Proof. repeat split. Qed.

Example translate_newlines_example :
  translate_newlines [97; 13; 10; 98; 13; 99; 10; 13]%N
  = [97; 10; 98; 10; 99; 10; 10]%N.
Proof. reflexivity. Qed.

Example utf8_examples :
  Utf8.encode [97; 233; 8364; 128512]%N
  = Some [ "a"; xc3; xa9; xe2; x82; xac; xf0; x9f; x98; x80 ]%byte /\
  Utf8.encode [55296%N] = None /\
  Utf8.decode [ xc0; x80 ]%byte = None /\
  Utf8.decode [ xed; xa0; x80 ]%byte = None /\
  Utf8.decode [ xe2; x82 ]%byte = None.
Proof. repeat split. Qed.

Example path_examples :
  OS.path_join "/cfg" "history" = "/cfg/history"%string /\
  OS.path_join "/cfg/" "history" = "/cfg/history"%string /\
  OS.path_join "/cfg" "/tmp/h" = "/tmp/h"%string /\
  OS.path_dirname "/cfg/sub//history" = "/cfg/sub"%string /\
  OS.path_dirname "/history" = "/"%string /\
  OS.path_dirname "history" = EmptyString.
Proof. repeat split. Qed.

(** A first save creates the directory and the file, and leaves no
    temporary file behind. *)
Example save_on_empty_directory :
  LineParser_save Sample.env_ok
    (Sample.state (Sample.lp (Sample.bin [Sample.b "a"; Sample.b "b"])) ∅ 0)
  = (Ok tt,
     Sample.state (Sample.lp (Sample.bin [Sample.b "a"; Sample.b "b"]))
       (Sample.files_with [ "a"; x0a; "b" ]%byte) 0).
Proof. vm_compute. reflexivity. Qed.

(** A limit of [-1] reaches [data[1:]]: the oldest record is dropped. *)
Example save_with_negative_limit :
  file_content
    (fs (snd (LimitLineParser_save Sample.env_ok
                (Sample.state
                   (Sample.llp (Some Sample.key)
                      (Sample.bin [Sample.b "a"; Sample.b "b"; Sample.b "c"]))
                   ∅ (-1)))))
    Sample.file
  = Some [ "b"; x0a; "c" ]%byte.
Proof. vm_compute. reflexivity. Qed.

Lemma fp_write_encoded {binary} (r : line binary) :
  fp_write r {| pending := [] |} =
  match encoded r with
  | Some c => Ok {| pending := c |}
  | None => Raise UnicodeEncodeError
  end.
Proof.
  destruct binary; [done|]. unfold fp_write, encoded. cbn [pending app].
  by destruct (Utf8.encode r).
Qed.

Lemma _write_encoded {binary} (d : list (line binary)) fp :
  _write {| pending := [] |} d = Ok fp ->
  encoded (join [nl binary] d) = Some (pending fp).
Proof.
  rewrite _write_join, fp_write_encoded.
  destruct (encoded _); [by intros [= <-]|done].
Qed.

(** Non-membership in a list given by its elements. *)
Ltac not_in :=
  try (split; [not_in|not_in]);
  let H := fresh in
  intros H;
  repeat (apply elem_of_cons in H as [H|H]; [discriminate H|]);
  by apply elem_of_nil in H.

Lemma sample_calls_succeed (files : gmap string node) :
  files !! "/cfg/history.XXXXXX"%string = None ->
  calls_succeed Sample.env_ok files Sample.dir Sample.file.
Proof.
  intros Hfresh. split; [by right|]. split; [by right; right|].
  split; [|done]. exists "/cfg/history.XXXXXX"%string. split; [done|].
  unfold with_parent, with_dir.
  repeat (case_bool_decide || case_match);
    by rewrite ?lookup_insert_ne.
Qed.

(** * The properties of the specification *)

(** C1: with a limit [N] resolved from the configuration store and
    [0 < N < L] for the [L] records in memory, the records split into the
    older ones and the last [N]; whenever [LimitLineParser.save] returns
    normally the file holds exactly those last [N] records, in their order
    and joined by newlines; whatever the outcome, the object, with its [L]
    records, is as it was; and the save does return normally when its
    system calls succeed and the records can be encoded. *)
Theorem C1_save_keeps_last_records binary env
    (s : State (LimitLineParser binary)) key (N : Z) :
  _limit (self s) = Some key ->
  conf s !! key = Some N ->
  0 < N < Z.of_nat (length (data (parser (self s)))) ->
  exists older kept,
    data (parser (self s)) = older ++ kept /\
    Z.of_nat (length kept) = N /\
    (forall s',
       LimitLineParser_save env s = (Ok tt, s') ->
       exists c,
         encoded (join [nl binary] kept) = Some c /\
         file_content (fs s') (_configfile (parser (self s))) = Some c) /\
    (forall r s',
       LimitLineParser_save env s = (r, s') ->
       self s' = self s /\
       length (data (parser (self s'))) = length (data (parser (self s)))) /\
    (calls_succeed env (fs s) (_configdir (parser (self s)))
       (_configfile (parser (self s))) ->
     Forall writable kept ->
     exists s',
       LimitLineParser_save env s = (Ok tt, s') /\
       file_content (fs s') (_configfile (parser (self s))) =
         Some (join [LF_byte] (map on_disk kept))).
Proof.
  intros Hkey Hconf HN.
  set (d := data (parser (self s))) in *.
  set (k := (length d - Z.to_nat N)%nat).
  exists (take k d), (drop k d).
  rewrite LimitLineParser_save_run, Hkey, Hconf.
  rewrite bool_decide_eq_false_2 by lia.
  fold d. rewrite slice_from_last by lia. fold k.
  split; [by rewrite take_drop|].
  split; [rewrite length_drop; lia|].
  split; [|split].
  - intros s' Hrun.
    apply save_to_inv in Hrun as (_ & _ & _ & fp & Hfp & Hfs).
    exists (pending fp). split; [by apply _write_encoded|].
    rewrite Hfs. apply file_content_insert.
  - intros r s' Hrun. apply save_to_inv in Hrun as (Hself & _).
    by rewrite Hself.
  - intros Hok Hw. eexists. split.
    + by erewrite save_to_ok; [|done|by apply _write_ok].
    + cbn [fs set_fs pending]. apply file_content_insert.
Qed.

Lemma C1_witness :
  let s := Sample.state
             (Sample.llp (Some Sample.key)
                (Sample.bin [Sample.b "one"; Sample.b "two"; Sample.b "three"]))
             ∅ 2 in
  exists s',
    LimitLineParser_save Sample.env_ok s = (Ok tt, s') /\
    file_content (fs s') Sample.file
      = Some (Sample.b "two" ++ [LF_byte] ++ Sample.b "three") /\
    self s' = self s.
Proof.
  intros s.
  destruct (C1_save_keeps_last_records true Sample.env_ok s Sample.key 2)
    as (older & kept & Hsplit & Hlen & Hfile & Hself & Hruns).
  - reflexivity.
  - vm_compute. reflexivity.
  - simpl. lia.
  - destruct Hruns as (s' & Hrun & _).
    + apply sample_calls_succeed. reflexivity.
    + apply Forall_forall. intros r _. exact I.
    + exists s'. split; [exact Hrun|].
      split; [|exact (proj1 (Hself _ _ Hrun))].
      destruct (Hfile _ Hrun) as (c & Hc & Hfc).
      etransitivity; [exact Hfc|]. rewrite <- Hc.
      assert (Hkept : kept = Sample.bin [Sample.b "two"; Sample.b "three"]).
      { assert (Hl : length older = 1%nat).
        { apply (f_equal length) in Hsplit.
          rewrite length_app in Hsplit. cbn in Hsplit. lia. }
        apply (f_equal (drop 1)) in Hsplit.
        rewrite drop_app_length' in Hsplit by done. by symmetry. }
      by rewrite Hkept.
Defined.

(** C2: a save that fails hands the exception to its caller with every
    regular file, the backing file among them, holding what it held before
    the call and with the object, hence [data], unchanged; and a save
    returns normally only when every system call it made succeeded (for a
    [LimitLineParser], or when the limit is 0 and nothing was to be done),
    so that a failure of directory creation, open, write, fsync or rename is
    never swallowed. *)
Theorem C2_failed_save_is_atomic binary env :
  (forall (s s' : State (LineParser binary)) r,
     LineParser_save env s = (r, s') ->
     self s' = self s /\
     match r with
     | Raise _ => forall q, file_content (fs s') q = file_content (fs s) q
     | Ok _ =>
         calls_succeed env (fs s) (_configdir (self s)) (_configfile (self s))
     end) /\
  (forall (s s' : State (LimitLineParser binary)) r,
     LimitLineParser_save env s = (r, s') ->
     self s' = self s /\
     match r with
     | Raise _ => forall q, file_content (fs s') q = file_content (fs s) q
     | Ok _ =>
         (exists key, _limit (self s) = Some key /\ conf s !! key = Some 0) \/
         calls_succeed env (fs s) (_configdir (parser (self s)))
           (_configfile (parser (self s)))
     end).
Proof.
  split.
  - intros s s' r Hrun. rewrite LineParser_save_run in Hrun.
    apply save_to_inv in Hrun as (Hself & _ & Hr). split; [done|].
    destruct r as [[]|e]; [by destruct Hr|done].
  - intros s s' r. rewrite LimitLineParser_save_run.
    destruct (_limit (self s)) as [key|] eqn:Hkey; [|by intros [= <- <-]].
    destruct (conf s !! key) as [limit|] eqn:Hconf; [|by intros [= <- <-]].
    case_bool_decide as Hzero.
    + intros [= <- <-]. split; [done|]. left. exists key. by subst limit.
    + intros Hrun. apply save_to_inv in Hrun as (Hself & _ & Hr).
      split; [done|]. destruct r as [[]|e]; [right; by destruct Hr|done].
Qed.

Lemma C2_witness :
  let s := Sample.state (Sample.lp (Sample.bin [Sample.b "new"]))
             (Sample.files_with (Sample.b "old")) 5 in
  let out := LineParser_save Sample.env_rename_fails s in
  fst out = Raise OSError /\
  self (snd out) = self s /\
  file_content (fs (snd out)) Sample.file = Some (Sample.b "old").
Proof.
  intros s out.
  assert (Hr : fst out = Raise OSError) by (vm_compute; reflexivity).
  split; [exact Hr|].
  pose proof (proj1 (C2_failed_save_is_atomic true Sample.env_rename_fails)
                s (snd out) (fst out) (surjective_pairing out)) as [Hself Hq].
  split; [exact Hself|].
  rewrite Hr in Hq. rewrite (Hq Sample.file). vm_compute. reflexivity.
Defined.

(** C3, as amended: for records none of which contains the newline (nor,
    in text mode, a carriage return or a code point that cannot be encoded)
    and the last of which, if there is one, is not empty, a
    [LineParser.save] on which no system call fails followed by the
    construction of a new [LineParser] on the same path gives an object
    with the same [data]: same records, same order, same length. *)
Theorem C3_save_then_load binary env1 env2 (s : State (LineParser binary)) :
  _configfile (self s) = OS.path_join (_configdir (self s)) (_fname (self s)) ->
  Forall one_line (data (self s)) ->
  Forall writable (data (self s)) ->
  last (data (self s)) ≠ Some [] ->
  calls_succeed env1 (fs s) (_configdir (self s)) (_configfile (self s)) ->
  open_read_ok env2 = true ->
  exists s1,
    LineParser_save env1 s = (Ok tt, s1) /\
    LineParser_init env2 (_configdir (self s)) (_fname (self s))
      (set_self tt s1) = (Ok (self s), set_self tt s1).
Proof.
  intros Hpath Hline Hw Hlast Hok Hread.
  eexists. split.
  - rewrite LineParser_save_run.
    erewrite save_to_ok; [done|done|by apply _write_ok].
  - rewrite LineParser_init_run. cbn zeta. rewrite <- Hpath.
    cbn [fs set_self set_fs pending].
    rewrite file_content_insert, Hread, (text_of_on_disk _ Hw Hline).
    rewrite readlines_join by (by try apply one_line_no_nl).
    f_equal. by destruct (self s).
Qed.

(** Without these conditions the round trip fails: a single empty record is
    saved as an empty file and loads as no record at all; in text mode a
    record with a carriage return loads as two records, and a record with a
    lone surrogate cannot be saved. *)
Lemma C3_counterexample :
  (let d := Sample.bin [[]] in
   let s := Sample.state (Sample.lp d) ∅ 0 in
   Forall (fun r => LF_byte ∉ r) d /\
   fst (LineParser_save Sample.env_ok s) = Ok tt /\
   fst (LineParser_init Sample.env_ok Sample.dir Sample.fname
          (set_self tt (snd (LineParser_save Sample.env_ok s))))
     = Ok (Sample.lp (Sample.bin [])) /\
   Sample.bin [] ≠ d) /\
  (let d := Sample.txt [[97; 13; 98]%N] in
   let s := Sample.state (Sample.lp d) ∅ 0 in
   Forall (fun r => LF ∉ r) d /\
   fst (LineParser_save Sample.env_ok s) = Ok tt /\
   fst (LineParser_init Sample.env_ok Sample.dir Sample.fname
          (set_self tt (snd (LineParser_save Sample.env_ok s))))
     = Ok (Sample.lp (Sample.txt [[97%N]; [98%N]])) /\
   Sample.txt [[97%N]; [98%N]] ≠ d) /\
  (let d := Sample.txt [[55296%N]] in
   let s := Sample.state (Sample.lp d) ∅ 0 in
   Forall (fun r => LF ∉ r) d /\
   fst (LineParser_save Sample.env_ok s) = Raise UnicodeEncodeError /\
   file_content (fs (snd (LineParser_save Sample.env_ok s))) Sample.file
     = None).
Proof.
  split; [|split]; cbn zeta.
  - split; [repeat constructor; not_in|].
    split; [vm_compute; reflexivity|].
    split; [vm_compute; reflexivity|discriminate].
  - split; [repeat constructor; not_in|].
    split; [vm_compute; reflexivity|].
    split; [vm_compute; reflexivity|discriminate].
  - split; [repeat constructor; not_in|].
    split; vm_compute; reflexivity.
Qed.

Lemma C3_witness :
  let d := Sample.txt [[233; 8364]%N; []; [128512; 97]%N] in
  let s := Sample.state (Sample.lp d) ∅ 0 in
  exists s1,
    LineParser_save Sample.env_ok s = (Ok tt, s1) /\
    LineParser_init Sample.env_ok Sample.dir Sample.fname (set_self tt s1)
      = (Ok (Sample.lp d), set_self tt s1).
Proof.
  intros d s.
  apply (C3_save_then_load false Sample.env_ok Sample.env_ok s).
  - reflexivity.
  - repeat constructor; not_in.
  - repeat constructor.
  - discriminate.
  - apply sample_calls_succeed. reflexivity.
  - reflexivity.
Defined.

(** C4: when the limit resolves to 0, [LimitLineParser.save] returns
    without any effect: the file system, with the file and its directory,
    the object and the configuration store are what they were. *)
Theorem C4_zero_limit_save_is_noop binary env
    (s : State (LimitLineParser binary)) key :
  _limit (self s) = Some key ->
  conf s !! key = Some 0 ->
  LimitLineParser_save env s = (Ok tt, s).
Proof.
  intros Hkey Hconf. by rewrite LimitLineParser_save_run, Hkey, Hconf.
Qed.

Lemma C4_witness :
  LimitLineParser_save Sample.env_ok
    (Sample.state
       (Sample.llp (Some Sample.key) (Sample.bin [Sample.b "one"])) ∅ 0)
  = (Ok tt,
     Sample.state
       (Sample.llp (Some Sample.key) (Sample.bin [Sample.b "one"])) ∅ 0).
Proof.
  apply (C4_zero_limit_save_is_noop true Sample.env_ok _ Sample.key).
  - reflexivity.
  - vm_compute. reflexivity.
Defined.

(** C5: [cleanup_file] does nothing for a key other than the limit key;
    for the limit key, when the value is 0 and the file exists, it removes
    the file, and a later [save] with the value still 0 does not bring the
    file back. *)
Theorem C5_cleanup_file binary env (s : State (LimitLineParser binary))
    section option :
  (Some (section, option) ≠ _limit (self s) ->
   cleanup_file env section option s = (Ok tt, s)) /\
  (forall c,
     _limit (self s) = Some (section, option) ->
     conf s !! (section, option) = Some 0 ->
     fs s !! _configfile (parser (self s)) = Some (File c) ->
     remove_ok env = true ->
     exists s',
       cleanup_file env section option s = (Ok tt, s') /\
       fs s' = delete (_configfile (parser (self s))) (fs s) /\
       fs s' !! _configfile (parser (self s)) = None /\
       self s' = self s /\ conf s' = conf s /\
       forall env', LimitLineParser_save env' s' = (Ok tt, s')).
Proof.
  split.
  - intros Hne. unfold cleanup_file. run.
    by rewrite bool_decide_eq_true_2.
  - intros c Hkey Hconf Hfile Hrm.
    eexists. split.
    + unfold cleanup_file. run.
      rewrite bool_decide_eq_false_2 by (by rewrite Hkey; intros []).
      rewrite Hconf. rewrite bool_decide_eq_true_2 by done.
      rewrite bool_decide_eq_true_2 by eauto. by rewrite Hfile, Hrm.
    + cbn [fs self conf set_fs]. split; [done|].
      split; [apply lookup_delete_eq|]. do 2 (split; [done|]).
      intros env'. rewrite LimitLineParser_save_run. cbn [self conf set_fs].
      by rewrite Hkey, Hconf.
Qed.

Lemma C5_witness :
  let s := Sample.state
             (Sample.llp (Some Sample.key) (Sample.bin [Sample.b "one"]))
             (Sample.files_with (Sample.b "one")) 0 in
  cleanup_file Sample.env_ok "completion" "web-history-max-items" s
    = (Ok tt, s) /\
  exists s',
    cleanup_file Sample.env_ok "completion" "cmd-history-max-items" s
      = (Ok tt, s') /\
    fs s' !! Sample.file = None /\
    LimitLineParser_save Sample.env_ok s' = (Ok tt, s').
Proof.
  intros s. split.
  - apply (proj1 (C5_cleanup_file true Sample.env_ok s
                    "completion" "web-history-max-items")).
    vm_compute. intros [=].
  - destruct (proj2 (C5_cleanup_file true Sample.env_ok s
                       "completion" "cmd-history-max-items")
                (Sample.b "one"))
      as (s' & Hrun & _ & Hgone & _ & _ & Hsave).
    + reflexivity.
    + vm_compute. reflexivity.
    + vm_compute. reflexivity.
    + reflexivity.
    + exists s'. split; [exact Hrun|]. split; [exact Hgone|]. apply Hsave.
Defined.

(** C6: a [LimitLineParser] constructed with [None] as its limit is not
    connected to the configuration object, and its [save] raises
    [TypeError] before anything is written. *)
Theorem C6_none_limit_save_raises binary env0 env configdir fname
    (w w' : State unit) (l : LimitLineParser binary) :
  LimitLineParser_init env0 configdir fname None w = (Ok l, w') ->
  _limit l = None /\ connected l = false /\
  LimitLineParser_save env (set_self l w') = (Raise TypeError, set_self l w').
Proof.
  unfold LimitLineParser_init, mbind, M_bind, mret, M_ret.
  destruct (LineParser_init env0 configdir fname w) as [[p|e] w1]; [|done].
  intros [= <- <-]. do 2 (split; [done|]).
  by rewrite LimitLineParser_save_run.
Qed.

Lemma C6_witness :
  let w := Sample.state tt ∅ 0 in
  let l := {| parser := Sample.lp (Sample.bin []); _limit := None;
              connected := false |} in
  LimitLineParser_save Sample.env_ok (set_self l w)
    = (Raise TypeError, set_self l w) /\
  fst (LineParser_save Sample.env_ok (set_self (parser l) w)) = Ok tt.
Proof.
  intros w l. split.
  - apply (C6_none_limit_save_raises true Sample.env_ok Sample.env_ok
             Sample.dir Sample.fname w w l).
    vm_compute. reflexivity.
  - vm_compute. reflexivity.
Defined.

(** C7, as amended: [_write] hands the file the records joined by one
    newline each, with nothing after the last record, and that is what a
    [save] that returns has put in the file; [_read] splits the
    text of the file on the newline and strips exactly that one terminator
    from each line and nothing else, where the text is the content itself in
    binary mode and, in text mode, the UTF-8 decoding of the content in
    which every ["\r\n"] and every other ["\r"] has been replaced by ["\n"]
    (universal newlines). *)
Theorem C7_serialize_and_load binary :
  (forall (fp : writer binary) (d : list (line binary)),
     _write fp d = fp_write (spec_serialize (nl binary) d) fp) /\
  (forall env (s s' : State (LineParser binary)),
     LineParser_save env s = (Ok tt, s') ->
     exists c,
       encoded (spec_serialize (nl binary) (data (self s))) = Some c /\
       file_content (fs s') (_configfile (self s)) = Some c) /\
  (forall env (s : State (LineParser binary)) c,
     fs s !! _configfile (self s) = Some (File c) ->
     open_read_ok env = true ->
     _read env s =
     match text_of c with
     | Some t =>
         (Ok tt, set_self (set_data (spec_load (nl binary) t) (self s)) s)
     | None => (Raise UnicodeDecodeError, s)
     end).
Proof.
  split; [|split].
  - intros fp d. by rewrite _write_join, join_spec.
  - intros env s s' Hrun. rewrite LineParser_save_run in Hrun.
    apply save_to_inv in Hrun as (_ & _ & _ & fp & Hfp & Hfs).
    exists (pending fp). rewrite Hfs, file_content_insert.
    by rewrite <- join_spec, (_write_encoded _ _ Hfp).
  - intros env s c Hfile Hread. rewrite _read_run, Hfile, Hread.
    destruct (text_of c) as [t|]; [|done]. by rewrite load_spec.
Qed.

(** In text mode the content is not split on the newline alone: the file
    that holds [a], a carriage return and [b] loads as two records. *)
Lemma C7_counterexample :
  let c := [ "a"; x0d; "b" ]%byte in
  let s := Sample.state (Sample.lp (Sample.txt [])) (Sample.files_with c) 0 in
  fs s !! _configfile (self s) = Some (File c) /\
  fst (_read Sample.env_ok s) = Ok tt /\
  data (self (snd (_read Sample.env_ok s))) = [[97%N]; [98%N]] /\
  spec_load LF <$> text_as_stated (binary := false) c
    = Some [[97; 13; 98]%N] /\
  Some (data (self (snd (_read Sample.env_ok s))))
    ≠ (spec_load LF <$> text_as_stated (binary := false) c).
Proof.
  cbn zeta. split; [vm_compute; reflexivity|].
  split; [vm_compute; reflexivity|].
  split; [vm_compute; reflexivity|].
  split; [vm_compute; reflexivity|].
  vm_compute. discriminate.
Qed.

Lemma C7_witness :
  let c := [ "a"; x0d; x0a; "b"; " "; x0a ]%byte in
  let s := Sample.state (Sample.lp (Sample.txt [])) (Sample.files_with c) 0 in
  _read Sample.env_ok s
    = (Ok tt, set_self (Sample.lp (Sample.txt [[97%N]; [98; 32]%N])) s).
Proof.
  intros c s.
  rewrite (proj2 (proj2 (C7_serialize_and_load false)) Sample.env_ok s c).
  - vm_compute. reflexivity.
  - vm_compute. reflexivity.
  - reflexivity.
Defined.

(** C8: when the path does not name an existing regular file, constructing
    a [LineParser] raises nothing, touches nothing, and [data] is the empty
    list. *)
Theorem C8_init_without_file binary env configdir fname (w : State unit) :
  file_content (fs w) (OS.path_join configdir fname) = None ->
  LineParser_init (binary := binary) env configdir fname w =
  (Ok {| _configdir := configdir;
         _configfile := OS.path_join configdir fname;
         _fname := fname;
         data := [] |}, w).
Proof.
  intros Hno. rewrite LineParser_init_run. cbn zeta. by rewrite Hno.
Qed.

Lemma C8_witness :
  LineParser_init (binary := false) Sample.env_ok "/cfg" "history"
    (Sample.state tt {[ Sample.dir := Dir 493 ]} 0)
  = (Ok (Sample.lp (Sample.txt [])), Sample.state tt {[ Sample.dir := Dir 493 ]} 0).
Proof.
  apply (C8_init_without_file false Sample.env_ok "/cfg" "history"
           (Sample.state tt {[ Sample.dir := Dir 493 ]} 0)).
  vm_compute. reflexivity.
Defined.

(** C9: when a save has returned normally, a second save with the object
    and the configuration left as they are leaves the file with the same
    bytes, whether the second save succeeds or fails, and it succeeds
    whenever its system calls do. *)
Theorem C9_save_twice binary env1 env2 :
  (forall (s s1 s2 : State (LineParser binary)) r,
     LineParser_save env1 s = (Ok tt, s1) ->
     LineParser_save env2 s1 = (r, s2) ->
     file_content (fs s2) (_configfile (self s))
       = file_content (fs s1) (_configfile (self s)) /\
     (calls_succeed env2 (fs s1) (_configdir (self s)) (_configfile (self s))
      -> r = Ok tt)) /\
  (forall (s s1 s2 : State (LimitLineParser binary)) r,
     LimitLineParser_save env1 s = (Ok tt, s1) ->
     LimitLineParser_save env2 s1 = (r, s2) ->
     file_content (fs s2) (_configfile (parser (self s)))
       = file_content (fs s1) (_configfile (parser (self s))) /\
     (calls_succeed env2 (fs s1) (_configdir (parser (self s)))
        (_configfile (parser (self s)))
      -> r = Ok tt)).
Proof.
  split.
  - intros s s1 s2 r H1 H2.
    rewrite LineParser_save_run in H1, H2.
    pose proof (save_to_inv _ _ _ _ _ _ _ H1) as (Hself & _ & _).
    rewrite Hself in H2. by eapply save_to_twice.
  - intros s s1 s2 r.
    rewrite !LimitLineParser_save_run.
    destruct (_limit (self s)) as [key|] eqn:Hkey; [|done].
    destruct (conf s !! key) as [limit|] eqn:Hconf; [|done].
    case_bool_decide as Hzero.
    + intros [= <-]. rewrite Hkey, Hconf, bool_decide_eq_true_2 by done.
      by intros [= <- <-].
    + intros H1.
      pose proof (save_to_inv _ _ _ _ _ _ _ H1) as (Hself & Hcf & _).
      rewrite Hself, Hcf, Hkey, Hconf, bool_decide_eq_false_2 by done.
      intros H2. by eapply save_to_twice.
Qed.

Lemma C9_witness :
  let s := Sample.state
             (Sample.llp (Some Sample.key)
                (Sample.bin [Sample.b "one"; Sample.b "two"])) ∅ 1 in
  let s1 := snd (LimitLineParser_save Sample.env_ok s) in
  let out := LimitLineParser_save Sample.env_ok s1 in
  file_content (fs (snd out)) Sample.file = file_content (fs s1) Sample.file /\
  file_content (fs s1) Sample.file = Some (Sample.b "two") /\
  fst out = Ok tt.
Proof.
  intros s s1 out.
  destruct (proj2 (C9_save_twice true Sample.env_ok Sample.env_ok)
              s s1 (snd out) (fst out)) as [Hsame Hok].
  - vm_compute. reflexivity.
  - apply surjective_pairing.
  - split; [exact Hsame|]. split; [vm_compute; reflexivity|].
    apply Hok. apply sample_calls_succeed. vm_compute. reflexivity.
Defined.

(** C10: after a [LineParser] has been constructed with success, in binary
    or in text mode, no record of [data] contains the newline anywhere; in
    particular none ends with it. *)
Theorem C10_loaded_records_have_no_newline binary env configdir fname
    (w w' : State unit) (p : LineParser binary) :
  LineParser_init env configdir fname w = (Ok p, w') ->
  Forall (fun r => (nl binary ∉ r) /\ last r ≠ Some (nl binary)) (data p).
Proof.
  rewrite LineParser_init_run. cbn zeta.
  assert (Hnone : forall r : line binary,
             nl binary ∉ r -> (nl binary ∉ r) /\ last r ≠ Some (nl binary)).
  { intros r Hr. split; [done|]. intros [l' ->]%last_Some.
    apply Hr. set_solver. }
  destruct (file_content _ _) as [c|]; [|by intros [= <- _]; constructor].
  destruct (open_read_ok env); [|done].
  destruct (text_of c) as [t|]; [|done].
  intros [= <- _]. cbn [data].
  eapply Forall_impl; [apply rstrip_readlines_no_eol|]. apply Hnone.
Qed.

Lemma C10_witness :
  Forall (fun r => (LF ∉ r) /\ last r ≠ Some LF)
    (Sample.txt [Sample.u "one"; Sample.u "two"; []; Sample.u "three"]).
Proof.
  apply (C10_loaded_records_have_no_newline false Sample.env_ok
           "/cfg" "history"
           (Sample.state tt
              (Sample.files_with
                 [ "o"; "n"; "e"; x0d; x0a; "t"; "w"; "o"; x0d; x0a; x0a;
                   "t"; "h"; "r"; "e"; "e"; x0a ]%byte) 0)
           (Sample.state tt
              (Sample.files_with
                 [ "o"; "n"; "e"; x0d; x0a; "t"; "w"; "o"; x0d; x0a; x0a;
                   "t"; "h"; "r"; "e"; "e"; x0a ]%byte) 0)
           (Sample.lp (Sample.txt [Sample.u "one"; Sample.u "two"; [];
                                   Sample.u "three"]))).
  vm_compute. reflexivity.
Defined.

(** * Further lemmas *)

(** ** More on the sequence operations *)

Section MoreSequenceFacts.
Context {A : Type} `{EqDecision A}.
Implicit Types (eol c : A) (s r : list A) (d : list (list A)).

Lemma readlines_nil_inv eol s : readlines eol s = [] -> s = [].
Proof.
  destruct s as [|c s]; [done|]. simpl.
  destruct (decide (c = eol)); [done|]. by destruct (readlines eol s).
Qed.

Lemma rstrip_cons_keep chars c s :
  c ∉ chars -> rstrip chars (c :: s) = c :: rstrip chars s.
Proof.
  intros Hc. simpl. destruct (rstrip chars s); [|done].
  by rewrite decide_False.
Qed.

Lemma join_cons_head sep c r d :
  join sep ((c :: r) :: d) = c :: join sep (r :: d).
Proof. by destruct d. Qed.

Lemma strip_one_cons eol c s :
  s ≠ [] -> strip_one eol (c :: s) = c :: strip_one eol s.
Proof.
  intros Hs. unfold strip_one. destruct s as [|c' s']; [done|].
  change (last (c :: c' :: s')) with (last (c' :: s')).
  destruct (last (c' :: s')) as [x|]; [|done].
  by destruct (decide (x = eol)).
Qed.

Lemma rstrip_single eol c :
  rstrip [eol] [c] = if decide (c = eol) then [] else [c].
Proof.
  simpl. destruct (decide (c = eol)) as [->|Hc].
  - rewrite decide_True; [done|]. by apply list_elem_of_singleton.
  - rewrite decide_False; [done|]. by intros ?%list_elem_of_singleton.
Qed.

Lemma strip_one_single eol c :
  strip_one eol [c] = if decide (c = eol) then [] else [c].
Proof. unfold strip_one. simpl. by destruct (decide (c = eol)). Qed.

(** Joining the lines that were read gives the content back, less its
    final terminator if it ends with one. *)
Lemma join_readlines eol s :
  join [eol] (map (rstrip [eol]) (readlines eol s)) = strip_one eol s.
Proof.
  induction s as [|c s IH]; [done|]. simpl readlines.
  destruct (readlines eol s) as [|l ls] eqn:Hl.
  - apply readlines_nil_inv in Hl as ->.
    rewrite strip_one_single.
    destruct (decide (c = eol)) as [->|Hc]; cbn [map join].
    + by rewrite rstrip_single, decide_True.
    + by rewrite rstrip_single, decide_False.
  - assert (s ≠ []) by (by intros ->).
    rewrite strip_one_cons by done. rewrite <- IH.
    destruct (decide (c = eol)) as [->|Hc]; cbn [map].
    + by rewrite rstrip_single, decide_True.
    + rewrite rstrip_cons_keep by (by intros ?%list_elem_of_singleton).
      by rewrite join_cons_head.
Qed.

(** The number of lines: one for each terminator, and one more for what
    follows the last terminator when that is not empty. *)
Lemma length_readlines eol s :
  length (readlines eol s) =
  (length (filter (fun c => c = eol) s)
   + match last s with
     | Some c => if decide (c = eol) then 0 else 1
     | None => 0
     end)%nat.
Proof.
  induction s as [|c s IH]; [done|]. simpl readlines.
  destruct (decide (c = eol)) as [Hc|Hc].
  - rewrite filter_cons_True by done. cbn [length]. rewrite IH.
    destruct s as [|c' s']; [|done]. cbn. by rewrite decide_True.
  - rewrite filter_cons_False by done.
    destruct s as [|c' s'].
    + cbn. by rewrite decide_False.
    + change (last (c :: c' :: s')) with (last (c' :: s')). rewrite <- IH.
      by destruct (readlines eol (c' :: s')) eqn:Hl;
        [apply readlines_nil_inv in Hl|].
Qed.

Lemma rstrip_subseteq chars s x : x ∈ rstrip chars s -> x ∈ s.
Proof.
  induction s as [|c s IH]; [done|]. simpl.
  destruct (rstrip chars s) as [|y r].
  - destruct (decide (c ∈ chars)); [by intros ?%elem_of_nil|].
    intros ->%list_elem_of_singleton. by left.
  - intros [->|Hx]%elem_of_cons; [by left|]. right. by apply IH.
Qed.

Lemma readlines_subseteq eol s l x :
  l ∈ readlines eol s -> x ∈ l -> x ∈ s.
Proof.
  revert l. induction s as [|c s IH]; intros l; [by intros ?%elem_of_nil|].
  simpl. destruct (decide (c = eol)) as [->|Hc].
  - intros [->|Hl]%elem_of_cons Hx.
    + apply list_elem_of_singleton in Hx as ->. by left.
    + right. by eapply IH.
  - destruct (readlines eol s) as [|l0 ls].
    + intros ->%list_elem_of_singleton Hx.
      apply list_elem_of_singleton in Hx as ->. by left.
    + intros [->|Hl]%elem_of_cons Hx.
      * apply elem_of_cons in Hx as [->|Hx]; [by left|].
        right. apply (IH l0); [by left|done].
      * right. apply (IH l); [by right|done].
Qed.

Lemma slice_from_all (n : Z) (xs : list A) :
  Z.of_nat (length xs) <= n -> 0 < n -> slice_from (- n) xs = xs.
Proof.
  intros Hn Hpos. unfold slice_from.
  destruct (Z.ltb_spec (- n) 0); [|lia].
  by replace (Z.to_nat _) with 0%nat by lia.
Qed.

Lemma slice_from_drop (k : Z) (xs : list A) :
  0 <= k -> slice_from k xs = drop (Z.to_nat k) xs.
Proof.
  intros Hk. unfold slice_from.
  destruct (Z.ltb_spec k 0); [lia|].
  destruct (Z.le_gt_cases k (Z.of_nat (length xs))).
  - by rewrite Z.min_l by done.
  - rewrite Z.min_r by lia. rewrite Nat2Z.id.
    by rewrite !drop_ge by lia.
Qed.

End MoreSequenceFacts.

Lemma translate_newlines_no_CR (s : str) : CR ∉ translate_newlines s.
Proof.
  assert (Hgen : forall n (s : str), (length s <= n)%nat ->
                   CR ∉ translate_newlines s).
  { clear s. induction n as [|n IH]; intros s Hn.
    - destruct s; [apply not_elem_of_nil|simpl in Hn; lia].
    - destruct s as [|c s]; [apply not_elem_of_nil|]. simpl in Hn. simpl.
      destruct (decide (c = CR)) as [->|Hc].
      + destruct s as [|c' s'].
        * intros ?%list_elem_of_singleton. done.
        * destruct (decide (c' = LF)).
          -- apply not_elem_of_cons. split; [done|].
             apply IH. simpl in Hn. lia.
          -- apply not_elem_of_cons. split; [done|]. apply IH. lia.
      + apply not_elem_of_cons. split; [done|]. apply IH. lia. }
  by apply (Hgen (length s)).
Qed.

(** DOS line ends read as Unix line ends. *)
Lemma translate_newlines_to_crlf (t : str) :
  CR ∉ t -> translate_newlines (to_crlf t) = t.
Proof.
  induction t as [|c t IH]; [done|]. intros Ht.
  apply not_elem_of_cons in Ht as [Hc Ht]. simpl.
  destruct (decide (c = LF)) as [->|Hlf].
  - cbn. by rewrite IH.
  - cbn. rewrite decide_False by done. by rewrite IH.
Qed.

(** ** More on the codec *)

Module MoreUtf8Facts.
Import Utf8 Utf8Facts.

Lemma cont_bound b x : cont b = Some x -> (x < 64)%N.
Proof.
  unfold cont.
  destruct (N.leb_spec 128 (Byte.to_N b)); [|done].
  destruct (N.ltb_spec (Byte.to_N b) 192); [|done].
  intros [= <-]. lia.
Qed.

Lemma scalar_intro c :
  (c < 1114112)%N -> (c < 55296 \/ 57344 <= c)%N -> scalar c = true.
Proof.
  intros Hc Hs. unfold scalar, is_surrogate.
  destruct (N.ltb_spec c 1114112); [|lia].
  destruct (N.leb_spec 55296 c); [|done].
  destruct (N.ltb_spec c 57344); [lia|done].
Qed.

Lemma is_surrogate_false c :
  is_surrogate c = false -> (c < 55296 \/ 57344 <= c)%N.
Proof.
  unfold is_surrogate.
  destruct (N.leb_spec 55296 c); [|lia].
  destruct (N.ltb_spec c 57344); [done|lia].
Qed.

Ltac decoded IH :=
  match goal with
  | |- cons ?c <$> decode ?r = Some _ -> _ =>
      let E := fresh "E" in
      destruct (decode r) eqn:E; [|done];
      intros [= <-]; constructor; [|eapply IH; [|exact E]; simpl in *; lia]
  end.

(** What decodes is made of code points that can be encoded. *)
Lemma decode_scalar bs s :
  decode bs = Some s -> Forall (fun c => scalar c = true) s.
Proof.
  assert (Hgen : forall n bs s, (length bs <= n)%nat -> decode bs = Some s ->
                   Forall (fun c => scalar c = true) s).
  { clear. induction n as [|n IH]; intros bs s Hn.
    - destruct bs; [by intros [= <-]|simpl in Hn; lia].
    - destruct bs as [|b0 r0]; [by intros [= <-]|]. cbn [decode].
      destruct (N.ltb_spec (Byte.to_N b0) 128).
      { decoded IH. apply scalar_intro; lia. }
      destruct (N.ltb_spec (Byte.to_N b0) 194); [done|].
      destruct (N.ltb_spec (Byte.to_N b0) 224).
      { destruct r0 as [|b1 r1]; [done|].
        destruct (cont b1) as [x1|] eqn:E1; [|done].
        apply cont_bound in E1.
        decoded IH. apply scalar_intro; lia. }
      destruct (N.ltb_spec (Byte.to_N b0) 240).
      { destruct r0 as [|b1 [|b2 r2]]; [done..|].
        destruct (cont b1) as [x1|] eqn:E1; [|done].
        destruct (cont b2) as [x2|] eqn:E2; [|done].
        apply cont_bound in E1, E2.
        destruct (_ || _) eqn:Hchk; [done|].
        apply orb_false_iff in Hchk as [_ Hsur].
        apply is_surrogate_false in Hsur.
        decoded IH. apply scalar_intro; lia. }
      destruct (N.ltb_spec (Byte.to_N b0) 245); [|done].
      destruct r0 as [|b1 [|b2 [|b3 r3]]]; [done..|].
      destruct (cont b1) as [x1|] eqn:E1; [|done].
      destruct (cont b2) as [x2|] eqn:E2; [|done].
      destruct (cont b3) as [x3|] eqn:E3; [|done].
      destruct (_ || _) eqn:Hchk; [done|].
      apply orb_false_iff in Hchk as [Hlow Hhigh].
      apply N.ltb_ge in Hlow. apply negb_false_iff, N.ltb_lt in Hhigh.
      decoded IH. apply scalar_intro; lia. }
  by apply (Hgen (length bs)).
Qed.

Lemma encode_char_Some_scalar c bs : encode_char c = Some bs -> scalar c = true.
Proof.
  unfold encode_char.
  destruct (N.ltb_spec c 128); [intros _; apply scalar_intro; lia|].
  destruct (N.ltb_spec c 2048); [intros _; apply scalar_intro; lia|].
  destruct (N.ltb_spec c 65536).
  - destruct (is_surrogate c) eqn:Hs; [done|]. intros _.
    apply is_surrogate_false in Hs. apply scalar_intro; lia.
  - destruct (N.ltb_spec c 1114112); [|done]. intros _.
    apply scalar_intro; lia.
Qed.

(** Only encodable code points are encoded. *)
Lemma encode_Some_scalar s bs :
  encode s = Some bs -> Forall (fun c => scalar c = true) s.
Proof.
  revert bs. induction s as [|c s IH]; intros bs; [constructor|]. simpl.
  destruct (encode_char c) as [bc|] eqn:Ec; [|done].
  destruct (encode s) as [r|]; [|done]. intros _.
  constructor; [by eapply encode_char_Some_scalar|by eapply IH].
Qed.

End MoreUtf8Facts.

(** ** More on running the methods *)

Lemma write_scope_set_self {O P} env file binary body (s : State O) (o : P) :
  AtomicFileWriter.write_scope env file binary body (set_self o s) =
  (fst (AtomicFileWriter.write_scope env file binary body s),
   set_self o (snd (AtomicFileWriter.write_scope env file binary body s))).
Proof.
  run. destruct (tmp_name env) as [t|]; [|done].
  destruct (fs s !! t); [done|]. cbn [fs set_fs set_self].
  destruct (body _) as [fp|e]; [|done].
  destruct (write_ok env); [|done]. cbn [fs set_fs set_self].
  destruct (fsync_ok env); [|done]. cbn [fs set_fs set_self].
  rewrite lookup_insert_eq. by destruct (rename_ok env).
Qed.

(** A save through the writer does not look at the object. *)
Lemma save_to_set_self {O P} {binary} env dir file body (s : State O) (o : P) :
  save_to (binary := binary) env dir file body (set_self o s) =
  (fst (save_to (binary := binary) env dir file body s),
   set_self o (snd (save_to (binary := binary) env dir file body s))).
Proof.
  rewrite !save_to_run. cbn [fs set_self].
  destruct (_ || _); [|done].
  unfold AtomicFileWriter.savefile_open, mbind, M_bind.
  rewrite !ensure_parent_run. cbn [fs set_fs set_self].
  destruct (_ || _ || _); [|done].
  apply (write_scope_set_self env file binary body
           (set_fs (with_parent file (with_dir dir (fs s))) s) o).
Qed.

Lemma LimitLineParser_init_run {binary} env configdir fname limit
    (w : State unit) :
  LimitLineParser_init (binary := binary) env configdir fname limit w =
  match LineParser_init env configdir fname w with
  | (Ok p, w') =>
      (Ok {| parser := p; _limit := limit;
             connected := bool_decide (limit ≠ None) |}, w')
  | (Raise e, w') => (Raise e, w')
  end.
Proof. reflexivity. Qed.

(** The constructor changes nothing but the object it builds. *)
Lemma LineParser_init_state {binary} env configdir fname (w w' : State unit)
    (r : result (LineParser binary)) :
  LineParser_init env configdir fname w = (r, w') -> w' = w.
Proof.
  rewrite LineParser_init_run. cbn zeta.
  repeat case_match; by intros [= _ <-].
Qed.

(** [LimitLineParser.save] with a limit other than 0 is [LineParser.save]
    on the records that the slice keeps. *)
Lemma LimitLineParser_save_sliced {binary} env
    (s : State (LimitLineParser binary)) key limit :
  _limit (self s) = Some key ->
  conf s !! key = Some limit ->
  limit ≠ 0 ->
  LimitLineParser_save env s =
  (fst (LineParser_save env
          (set_self (set_data (slice_from (- limit) (data (parser (self s))))
                       (parser (self s))) s)),
   set_self (self s)
     (snd (LineParser_save env
             (set_self (set_data (slice_from (- limit)
                                    (data (parser (self s))))
                          (parser (self s))) s)))).
Proof.
  intros Hkey Hconf Hnz.
  rewrite LimitLineParser_save_run, Hkey, Hconf.
  rewrite bool_decide_eq_false_2 by done.
  rewrite LineParser_save_run. cbn [self set_self set_data _configdir
                                      _configfile data].
  rewrite save_to_set_self. cbn [fst snd].
  destruct (save_to _ _ _ _ s) as [r s'] eqn:Hrun. cbn [fst snd].
  apply save_to_inv in Hrun as (Hself & _).
  destruct s' as [o f cf]. cbn in Hself. by subst o.
Qed.

(** * Further properties of the code *)

Lemma set_data_id {binary} (p : LineParser binary) : set_data (data p) p = p.
Proof. by destruct p. Qed.

(** X1: with a positive limit that is not below the number of records,
    [LimitLineParser.save] is [LineParser.save]: it has the same outcome and
    leaves the same files, all records being written. *)
Theorem limit_not_below_length_saves_all binary env
    (s : State (LimitLineParser binary)) key (N : Z) :
  _limit (self s) = Some key ->
  conf s !! key = Some N ->
  0 < N ->
  Z.of_nat (length (data (parser (self s)))) <= N ->
  LimitLineParser_save env s =
  (fst (LineParser_save env (set_self (parser (self s)) s)),
   set_self (self s)
     (snd (LineParser_save env (set_self (parser (self s)) s)))).
Proof.
  intros Hkey Hconf Hpos Hlen.
  rewrite (LimitLineParser_save_sliced env s key N) by (done || lia).
  by rewrite slice_from_all, set_data_id by done.
Qed.

Lemma limit_not_below_length_witness :
  let s := Sample.state
             (Sample.llp (Some Sample.key)
                (Sample.bin [Sample.b "one"; Sample.b "two"])) ∅ 2 in
  LimitLineParser_save Sample.env_ok s =
  (Ok tt,
   Sample.state
     (Sample.llp (Some Sample.key)
        (Sample.bin [Sample.b "one"; Sample.b "two"]))
     (Sample.files_with (Sample.b "one" ++ [LF_byte] ++ Sample.b "two")) 2).
Proof.
  intros s.
  rewrite (limit_not_below_length_saves_all true Sample.env_ok s Sample.key 2).
  - vm_compute. reflexivity.
  - reflexivity.
  - vm_compute. reflexivity.
  - lia.
  - simpl. lia.
Defined.

(** X2: with a negative limit [-k], [LimitLineParser.save] is
    [LineParser.save] on [data[k:]]: the [k] oldest records are left out of
    the file, the object keeping them. *)
Theorem negative_limit_drops_oldest binary env
    (s : State (LimitLineParser binary)) key (k : Z) :
  _limit (self s) = Some key ->
  conf s !! key = Some (- k) ->
  0 < k ->
  LimitLineParser_save env s =
  (fst (LineParser_save env
          (set_self (set_data (drop (Z.to_nat k) (data (parser (self s))))
                       (parser (self s))) s)),
   set_self (self s)
     (snd (LineParser_save env
             (set_self (set_data (drop (Z.to_nat k) (data (parser (self s))))
                          (parser (self s))) s)))).
Proof.
  intros Hkey Hconf Hpos.
  rewrite (LimitLineParser_save_sliced env s key (- k)) by (done || lia).
  by rewrite Z.opp_involutive, slice_from_drop by lia.
Qed.

Lemma negative_limit_witness :
  let s := Sample.state
             (Sample.llp (Some Sample.key)
                (Sample.bin [Sample.b "one"; Sample.b "two"; Sample.b "three"]))
             ∅ (-1) in
  LimitLineParser_save Sample.env_ok s =
  (Ok tt,
   Sample.state
     (Sample.llp (Some Sample.key)
        (Sample.bin [Sample.b "one"; Sample.b "two"; Sample.b "three"]))
     (Sample.files_with (Sample.b "two" ++ [LF_byte] ++ Sample.b "three"))
     (-1)).
Proof.
  intros s.
  rewrite (negative_limit_drops_oldest true Sample.env_ok s Sample.key 1).
  - vm_compute. reflexivity.
  - reflexivity.
  - vm_compute. reflexivity.
  - lia.
Defined.

(** X3: [cleanup_file] never changes the object or the configuration, and
    the only thing it ever does to the file system is to remove the backing
    file, which it does only for the limit key, when the value is 0 and the
    path is a regular file; in every other case the state is left as it
    is. *)
Theorem cleanup_file_frame binary env (s s' : State (LimitLineParser binary))
    section option r :
  cleanup_file env section option s = (r, s') ->
  s' = s \/
  (r = Ok tt /\
   _limit (self s) = Some (section, option) /\
   conf s !! (section, option) = Some 0 /\
   (exists c, fs s !! _configfile (parser (self s)) = Some (File c)) /\
   s' = set_fs (delete (_configfile (parser (self s))) (fs s)) s).
Proof.
  unfold cleanup_file. run.
  case_bool_decide as Hkey; [by intros [= <- <-]; left|].
  symmetry in Hkey.
  destruct (conf s !! (section, option)) as [v|] eqn:Hconf;
    [|by intros [= <- <-]; left].
  case_bool_decide as Hzero; [|by intros [= <- <-]; left]. subst v.
  case_bool_decide as Hex; [|by intros [= <- <-]; left].
  destruct (fs s !! _configfile (parser (self s))) as [[c|m]|] eqn:Hfile;
    [|by intros [= <- <-]; left..].
  destruct (remove_ok env); [|by intros [= <- <-]; left].
  intros [= <- <-]. right. by eauto 10.
Qed.

Lemma cleanup_file_frame_witness :
  let s := Sample.state
             (Sample.llp (Some Sample.key) (Sample.bin [Sample.b "one"]))
             (Sample.files_with (Sample.b "one")) 100 in
  cleanup_file Sample.env_ok "completion" "cmd-history-max-items" s
  = (Ok tt, s).
Proof.
  intros s.
  destruct (cleanup_file_frame true Sample.env_ok s
              (snd (cleanup_file Sample.env_ok "completion"
                      "cmd-history-max-items" s))
              "completion" "cmd-history-max-items"
              (fst (cleanup_file Sample.env_ok "completion"
                      "cmd-history-max-items" s))
              (surjective_pairing _)) as [Hsame|(_ & _ & Hzero & _)].
  - rewrite (surjective_pairing (cleanup_file _ _ _ s)), Hsame.
    vm_compute. reflexivity.
  - vm_compute in Hzero. discriminate Hzero.
Defined.

(** X4: constructing a [LineParser] changes nothing in the file system or
    the configuration, whether it returns or raises; when it returns the
    object holds the directory, the file name and their join; and it raises
    only for an existing regular file that cannot be opened ([OSError]) or,
    in text mode, whose content is not UTF-8 ([UnicodeDecodeError]). *)
Theorem init_outcome binary env configdir fname (w w' : State unit)
    (r : result (LineParser binary)) :
  LineParser_init env configdir fname w = (r, w') ->
  w' = w /\
  match r with
  | Ok p =>
      _configdir p = configdir /\ _fname p = fname /\
      _configfile p = OS.path_join configdir fname
  | Raise e =>
      exists c,
        file_content (fs w) (OS.path_join configdir fname) = Some c /\
        ((e = OSError /\ open_read_ok env = false) \/
         (e = UnicodeDecodeError /\ binary = false /\
          open_read_ok env = true /\ Utf8.decode c = None))
  end.
Proof.
  intros Hrun. split; [by eapply LineParser_init_state|].
  rewrite LineParser_init_run in Hrun. cbn zeta in Hrun.
  destruct (file_content _ _) as [c|]; [|by simplify_eq].
  destruct (open_read_ok env) eqn:Hopen; [|simplify_eq; by eauto 10].
  destruct (text_of c) as [t|] eqn:Ht; [by simplify_eq|].
  simplify_eq. exists c. split; [done|]. right.
  destruct binary; [done|]. unfold text_of in Ht.
  by destruct (Utf8.decode c).
Qed.

Lemma init_outcome_witness :
  let w := Sample.state tt (Sample.files_with [ "a"; xff ]%byte) 0 in
  LineParser_init (binary := false) Sample.env_ok Sample.dir Sample.fname w
  = (Raise UnicodeDecodeError, w).
Proof.
  intros w.
  pose proof (init_outcome false Sample.env_ok Sample.dir Sample.fname w
                (snd (LineParser_init (binary := false) Sample.env_ok
                        Sample.dir Sample.fname w))
                (fst (LineParser_init (binary := false) Sample.env_ok
                        Sample.dir Sample.fname w))
                (surjective_pairing _)) as [Hw _].
  rewrite (surjective_pairing (LineParser_init _ _ _ w)), Hw.
  vm_compute. reflexivity.
Defined.

Lemma translate_newlines_elem (s : str) x :
  x ∈ translate_newlines s -> x = LF \/ x ∈ s.
Proof.
  assert (Hgen : forall n (s : str), (length s <= n)%nat ->
                   x ∈ translate_newlines s -> x = LF \/ x ∈ s).
  { clear s. induction n as [|n IH]; intros s Hn.
    - destruct s; [by intros ?%elem_of_nil|simpl in Hn; lia].
    - destruct s as [|c s]; [by intros ?%elem_of_nil|]. simpl in Hn. simpl.
      destruct (decide (c = CR)) as [->|Hc].
      + destruct s as [|c' s'].
        * intros ->%list_elem_of_singleton. by left.
        * simpl in Hn. destruct (decide (c' = LF)).
          -- intros [->|Hx]%elem_of_cons; [by left|].
             destruct (IH s' ltac:(lia) Hx) as [?|?]; [by left|].
             right. by do 2 right.
          -- intros [->|Hx]%elem_of_cons; [by left|].
             destruct (IH (c' :: s') ltac:(simpl; lia) Hx) as [?|?];
               [by left|]. right. by right.
      + intros [->|Hx]%elem_of_cons; [right; by left|].
        destruct (IH s ltac:(lia) Hx) as [?|?]; [by left|]. right. by right. }
  by apply (Hgen (length s)).
Qed.

(** The records that loading gives can be written, and each reads back as
    one line. *)
Lemma loaded_records_fit {binary} (c : bytes) (t : line binary) :
  text_of c = Some t ->
  Forall writable (map (rstrip [nl binary]) (readlines (nl binary) t)) /\
  Forall one_line (map (rstrip [nl binary]) (readlines (nl binary) t)).
Proof.
  intros Ht.
  pose proof (rstrip_readlines_no_eol (nl binary) t) as Hnl.
  destruct binary.
  - split; [apply Forall_forall; by intros|done].
  - unfold text_of in Ht.
    destruct (Utf8.decode c) as [t0|] eqn:Hdec; [|done].
    cbn in Ht. injection Ht as <-.
    apply MoreUtf8Facts.decode_scalar in Hdec.
    assert (Hin : forall r x,
               r ∈ map (rstrip [LF]) (readlines LF (translate_newlines t0)) ->
               x ∈ r -> x ∈ translate_newlines t0).
    { intros r x Hr Hx. apply list_elem_of_In, in_map_iff in Hr
        as (l & <- & Hl%list_elem_of_In).
      eapply readlines_subseteq; [exact Hl|]. by eapply rstrip_subseteq. }
    split.
    + apply Forall_forall. intros r Hr. apply Forall_forall. intros x Hx.
      destruct (translate_newlines_elem _ _ (Hin r x Hr Hx)) as [->|Hx0];
        [done|].
      rewrite Forall_forall in Hdec. by apply Hdec.
    + apply Forall_forall. intros r Hr. split.
      * rewrite Forall_forall in Hnl. by apply Hnl.
      * intros Hcr. apply (translate_newlines_no_CR t0). by eapply Hin.
Qed.

(** X5: in text mode no record of a [LineParser] that has been constructed
    contains a carriage return: every ["\r\n"] and every lone ["\r"] of the
    file has been read as a line end. *)
Theorem text_records_have_no_carriage_return env configdir fname
    (w w' : State unit) (p : LineParser false) :
  LineParser_init env configdir fname w = (Ok p, w') ->
  Forall (fun r => CR ∉ r) (data p).
Proof.
  rewrite LineParser_init_run. cbn zeta.
  destruct (file_content _ _) as [c|]; [|by intros [= <- _]; constructor].
  destruct (open_read_ok env); [|done].
  destruct (text_of c) as [t|] eqn:Ht; [|done].
  intros [= <- _]. cbn [data].
  destruct (loaded_records_fit c t Ht) as [_ Hline].
  eapply Forall_impl; [exact Hline|]. by intros r [_ ?].
Qed.

Lemma text_records_witness :
  Forall (fun r => CR ∉ r)
    (Sample.txt [Sample.u "one"; Sample.u "two"; Sample.u "three"]).
Proof.
  apply (text_records_have_no_carriage_return Sample.env_ok
           Sample.dir Sample.fname
           (Sample.state tt
              (Sample.files_with
                 [ "o"; "n"; "e"; x0d; "t"; "w"; "o"; x0d; x0a;
                   "t"; "h"; "r"; "e"; "e" ]%byte) 0)
           (Sample.state tt
              (Sample.files_with
                 [ "o"; "n"; "e"; x0d; "t"; "w"; "o"; x0d; x0a;
                   "t"; "h"; "r"; "e"; "e" ]%byte) 0)
           (Sample.lp (Sample.txt [Sample.u "one"; Sample.u "two";
                                   Sample.u "three"]))).
  vm_compute. reflexivity.
Defined.

(** X6: a [LineParser] constructed on an existing file holds one record for
    each newline of the text of the file, and one more when the text does
    not end with a newline and is not empty. *)
Theorem loaded_record_count binary env configdir fname (w w' : State unit)
    (p : LineParser binary) c :
  file_content (fs w) (OS.path_join configdir fname) = Some c ->
  LineParser_init env configdir fname w = (Ok p, w') ->
  exists t,
    text_of c = Some t /\
    length (data p) =
    (length (filter (fun x => x = nl binary) t)
     + match last t with
       | Some x => if decide (x = nl binary) then 0 else 1
       | None => 0
       end)%nat.
Proof.
  intros Hfile. rewrite LineParser_init_run. cbn zeta. rewrite Hfile.
  destruct (open_read_ok env); [|done].
  destruct (text_of c) as [t|]; [|done].
  intros [= <- _]. exists t. split; [done|]. cbn [data].
  by rewrite length_map, length_readlines.
Qed.

Lemma loaded_record_count_witness :
  let w := Sample.state tt (Sample.files_with [ "a"; x0a; x0a; "b" ]%byte) 0 in
  exists p,
    LineParser_init (binary := true) Sample.env_ok Sample.dir Sample.fname w
      = (Ok p, w) /\
    length (data p) = 3%nat.
Proof.
  intros w.
  exists (Sample.lp (Sample.bin [Sample.b "a"; []; Sample.b "b"])).
  assert (Hrun : LineParser_init (binary := true) Sample.env_ok Sample.dir
                   Sample.fname w
                 = (Ok (Sample.lp (Sample.bin [Sample.b "a"; []; Sample.b "b"])),
                    w)) by (vm_compute; reflexivity).
  split; [exact Hrun|].
  destruct (loaded_record_count true Sample.env_ok Sample.dir Sample.fname
              w w (Sample.lp (Sample.bin [Sample.b "a"; []; Sample.b "b"]))
              [ "a"; x0a; x0a; "b" ]%byte)
    as (t & Ht & Hlen).
  - vm_compute. reflexivity.
  - exact Hrun.
  - vm_compute in Ht. injection Ht as <-.
    etransitivity; [exact Hlen|]. vm_compute. reflexivity.
Defined.



(** X8: [LimitLineParser.__init__] does not look at the configuration: the
    file is read as [LineParser.__init__] reads it whatever the limit is,
    0 included, nothing is removed or written, and the object is connected
    to the configuration exactly when a limit key was given. *)
Theorem limit_init_ignores_configuration binary env configdir fname limit
    (w w' : State unit) (r : result (LimitLineParser binary)) cf :
  LimitLineParser_init env configdir fname limit w = (r, w') ->
  w' = w /\
  LimitLineParser_init env configdir fname limit (set_conf cf w)
    = (r, set_conf cf w) /\
  match r with
  | Ok l =>
      LineParser_init env configdir fname w = (Ok (parser l), w) /\
      _limit l = limit /\
      connected l = bool_decide (limit ≠ None)
  | Raise e => LineParser_init (binary := binary) env configdir fname w
               = (Raise e, w)
  end.
Proof.
  rewrite !LimitLineParser_init_run.
  assert (Hcf : LineParser_init (binary := binary) env configdir fname
                  (set_conf cf w) =
                (fst (LineParser_init (binary := binary) env configdir fname w),
                 set_conf cf w)).
  { rewrite !LineParser_init_run. cbn zeta. cbn [fs set_conf].
    by repeat case_match. }
  rewrite Hcf.
  destruct (LineParser_init env configdir fname w) as [[p|e] w1] eqn:Hrun;
    pose proof (LineParser_init_state _ _ _ _ _ _ Hrun) as ->;
    by intros [= <- <-].
Qed.

Lemma limit_init_witness :
  let w := Sample.state tt (Sample.files_with (Sample.b "kept")) 0 in
  LimitLineParser_init (binary := true) Sample.env_ok Sample.dir Sample.fname
    (Some Sample.key) w
  = (Ok (Sample.llp (Some Sample.key) (Sample.bin [Sample.b "kept"])), w).
Proof.
  intros w.
  pose proof (limit_init_ignores_configuration true Sample.env_ok Sample.dir
                Sample.fname (Some Sample.key) w
                (snd (LimitLineParser_init (binary := true) Sample.env_ok
                        Sample.dir Sample.fname (Some Sample.key) w))
                (fst (LimitLineParser_init (binary := true) Sample.env_ok
                        Sample.dir Sample.fname (Some Sample.key) w))
                ∅ (surjective_pairing _)) as [Hw _].
  rewrite (surjective_pairing (LimitLineParser_init _ _ _ _ w)), Hw.
  vm_compute. reflexivity.
Defined.

Lemma strip_one_subseteq {A} `{EqDecision A} (eol : A) (s : list A) x :
  x ∈ strip_one eol s -> x ∈ s.
Proof.
  unfold strip_one. destruct (last s) as [c|] eqn:Hl; [|done].
  destruct (decide (c = eol)); [|done].
  apply last_Some in Hl as [s' ->]. rewrite removelast_last. set_solver.
Qed.

(** X9: constructing a [LineParser] on a file and saving it, [data] left as
    it was loaded, rewrites the file as its text less one final newline:
    a file that ends with a newline loses it, any other file keeps its
    text (in text mode with every line end read as a newline). *)
Theorem load_then_save_strips_final_newline binary env1 env2 configdir fname
    (w w' : State unit) (p : LineParser binary) c t :
  file_content (fs w) (OS.path_join configdir fname) = Some c ->
  text_of c = Some t ->
  LineParser_init env1 configdir fname w = (Ok p, w') ->
  calls_succeed env2 (fs w) configdir (OS.path_join configdir fname) ->
  exists s' c',
    LineParser_save env2 (set_self p w') = (Ok tt, s') /\
    file_content (fs s') (OS.path_join configdir fname) = Some c' /\
    text_of c' = Some (strip_one (nl binary) t).
Proof.
  intros Hfile Ht Hrun Hok.
  pose proof (LineParser_init_state _ _ _ _ _ _ Hrun) as ->.
  rewrite LineParser_init_run in Hrun. cbn zeta in Hrun.
  rewrite Hfile, Ht in Hrun.
  destruct (open_read_ok env1); [|done]. injection Hrun as <-.
  destruct (loaded_records_fit c t Ht) as [Hw Hline].
  eexists _, _. split; [|split].
  - rewrite LineParser_save_run. cbn [self set_self _configdir _configfile data].
    by erewrite save_to_ok; [|done|by apply _write_ok].
  - cbn [fs set_fs pending]. apply file_content_insert.
  - rewrite (text_of_on_disk _ Hw Hline). by rewrite join_readlines.
Qed.

Lemma load_then_save_witness :
  let w := Sample.state tt
             (Sample.files_with [ "a"; x0a; "b"; x0a; x0a ]%byte) 0 in
  exists s',
    LineParser_save Sample.env_ok
      (set_self (Sample.lp (Sample.bin [Sample.b "a"; Sample.b "b"; []])) w)
      = (Ok tt, s') /\
    file_content (fs s') Sample.file = Some [ "a"; x0a; "b"; x0a ]%byte.
Proof.
  intros w.
  destruct (load_then_save_strips_final_newline true Sample.env_ok
              Sample.env_ok Sample.dir Sample.fname w w
              (Sample.lp (Sample.bin [Sample.b "a"; Sample.b "b"; []]))
              [ "a"; x0a; "b"; x0a; x0a ]%byte
              [ "a"; x0a; "b"; x0a; x0a ]%byte)
    as (s' & c' & Hsave & Hfile & Htext).
  - vm_compute. reflexivity.
  - reflexivity.
  - vm_compute. reflexivity.
  - apply sample_calls_succeed. vm_compute. reflexivity.
  - exists s'. split; [exact Hsave|].
    etransitivity; [exact Hfile|exact Htext].
Defined.

(** X10: what survives a restart.  For a limit other than 0, when the
    records that the slice keeps have no newline (nor, in text mode, a
    carriage return or a code point that cannot be encoded) and the last of
    them is not empty, a [LimitLineParser.save] on which no system call
    fails followed by the construction of a new [LimitLineParser] on the same
    path and limit key gives an object that holds exactly the kept
    records. *)
Theorem limited_save_then_load binary env1 env2
    (s : State (LimitLineParser binary)) key limit :
  _limit (self s) = Some key ->
  conf s !! key = Some limit ->
  limit ≠ 0 ->
  _configfile (parser (self s)) =
    OS.path_join (_configdir (parser (self s))) (_fname (parser (self s))) ->
  Forall one_line (slice_from (- limit) (data (parser (self s)))) ->
  Forall writable (slice_from (- limit) (data (parser (self s)))) ->
  last (slice_from (- limit) (data (parser (self s)))) ≠ Some [] ->
  calls_succeed env1 (fs s) (_configdir (parser (self s)))
    (_configfile (parser (self s))) ->
  open_read_ok env2 = true ->
  exists s1,
    LimitLineParser_save env1 s = (Ok tt, s1) /\
    LimitLineParser_init env2 (_configdir (parser (self s)))
      (_fname (parser (self s))) (Some key) (set_self tt s1)
    = (Ok {| parser := set_data (slice_from (- limit)
                                   (data (parser (self s))))
                         (parser (self s));
             _limit := Some key;
             connected := true |},
       set_self tt s1).
Proof.
  intros Hkey Hconf Hnz Hpath Hline Hw Hlast Hok Hread.
  eexists. split.
  - rewrite LimitLineParser_save_run, Hkey, Hconf.
    rewrite bool_decide_eq_false_2 by done.
    by erewrite save_to_ok; [|done|by apply _write_ok].
  - rewrite LimitLineParser_init_run, LineParser_init_run. cbn zeta.
    rewrite <- Hpath. cbn [fs set_self set_fs pending].
    rewrite file_content_insert, Hread, (text_of_on_disk _ Hw Hline).
    rewrite readlines_join by (by try apply one_line_no_nl).
    unfold set_data. by do 2 f_equal.
Qed.

Lemma limited_save_then_load_witness :
  let s := Sample.state
             (Sample.llp (Some Sample.key)
                (Sample.txt [Sample.u "one"; Sample.u "two"; Sample.u "three"]))
             ∅ 2 in
  exists s1,
    LimitLineParser_save Sample.env_ok s = (Ok tt, s1) /\
    LimitLineParser_init Sample.env_ok Sample.dir Sample.fname
      (Some Sample.key) (set_self tt s1)
    = (Ok (Sample.llp (Some Sample.key)
             (Sample.txt [Sample.u "two"; Sample.u "three"])),
       set_self tt s1).
Proof.
  intros s.
  apply (limited_save_then_load false Sample.env_ok Sample.env_ok s
           Sample.key 2).
  - reflexivity.
  - vm_compute. reflexivity.
  - lia.
  - reflexivity.
  - repeat constructor; not_in.
  - repeat constructor.
  - discriminate.
  - apply sample_calls_succeed. reflexivity.
  - reflexivity.
Defined.

(** ** Subscripts *)

Lemma omap_lookup_positions {A} (xs : list A) (first : Z) (i k : nat) :
  0 <= first ->
  omap (fun p => xs !! Z.to_nat p)
    (map (fun j : nat => first + Z.of_nat j * 1) (seq i k))
  = take k (drop (Z.to_nat first + i) xs).
Proof.
  intros Hf. revert i. induction k as [|k IH]; intros i; [done|].
  cbn [seq map]. cbn [omap list_omap]. fold (@omap list _).
  change (list_omap ?f ?l) with (omap f l).
  rewrite IH.
  replace (Z.to_nat (first + Z.of_nat i * 1)) with (Z.to_nat first + i)%nat
    by lia.
  destruct (xs !! (Z.to_nat first + i)%nat) as [x|] eqn:Hx.
  - rewrite (drop_S _ _ _ Hx). cbn [take]. do 3 f_equal. lia.
  - apply lookup_ge_None in Hx.
    by rewrite !drop_ge, !take_nil by lia.
Qed.

(** The slice [xs[start:]] of a subscript is the slice that [save]
    takes. *)
Lemma list_getitem_slice_from {A} (xs : list A) (start : Z) :
  list_getitem xs (Slice (Some start) None None) = Sublist (slice_from start xs).
Proof.
  unfold list_getitem, slice_positions, adjust_index, slice_from.
  cbn [default]. change (1 =? 0) with false. cbv iota.
  change (1 <? 0) with false. cbv iota. cbv zeta.
  set (n := Z.of_nat (length xs)). f_equal.
  assert (Hn : 0 <= n) by lia.
  assert (Hall : forall f : Z,
             0 <= f <= n ->
             omap (fun p => xs !! Z.to_nat p)
               (map (fun j : nat => f + Z.of_nat j * 1)
                  (seq 0 (Z.to_nat (if f <? n then (n - f - 1) / 1 + 1
                                    else 0))))
             = drop (Z.to_nat f) xs).
  { intros f Hf. rewrite omap_lookup_positions by lia.
    rewrite Nat.add_0_r. destruct (Z.ltb_spec f n).
    - rewrite Z.div_1_r. apply take_ge. rewrite length_drop. lia.
    - rewrite take_0. rewrite drop_ge by lia. done. }
  destruct (Z.ltb_spec start 0).
  - destruct (Z.ltb_spec (start + n) 0).
    + rewrite Z.max_l by lia. by apply Hall.
    + rewrite Z.max_r by lia. apply Hall. lia.
  - destruct (Z.leb_spec n start).
    + rewrite Z.min_r by lia. apply Hall. lia.
    + rewrite Z.min_l by lia. apply Hall. lia.
Qed.

(** X11: [parser[i]] for an integer [i] is an element exactly when
    [-len <= i < len], and it is then the one that iteration yields at
    position [i mod len], so that negative subscripts count from the end; for
    every other integer [IndexError] is raised. *)
Theorem getitem_index_agrees_with_iter binary (p : LineParser binary) (i : Z) :
  let n := Z.of_nat (length (LineParser_iter p)) in
  (forall r, LineParser_getitem p (Index i) = Element r <->
             - n <= i < n /\
             LineParser_iter p !! Z.to_nat (i mod n) = Some r) /\
  (LineParser_getitem p (Index i) = IndexError <-> ~ (- n <= i < n)).
Proof.
  unfold LineParser_getitem, LineParser_iter, list_getitem. cbv zeta.
  set (n := Z.of_nat (length (data p))).
  set (j := if i <? 0 then i + n else i).
  assert (Hrange : (j <? 0) || (n <=? j) = false <-> - n <= i < n).
  { unfold j. rewrite orb_false_iff, Z.ltb_ge, Z.leb_gt.
    destruct (Z.ltb_spec i 0); lia. }
  assert (Hmod : - n <= i < n -> i mod n = j).
  { intros Hi. unfold j. destruct (Z.ltb_spec i 0).
    - rewrite <- (Z_mod_plus_full i 1 n), Z.mul_1_l. apply Z.mod_small. lia.
    - apply Z.mod_small. lia. }
  destruct ((j <? 0) || (n <=? j)) eqn:Hb.
  - assert (Hout : ~ (- n <= i < n))
      by (intros Hi; apply Hrange in Hi; done).
    split; [|done]. intros r. split; [done|]. by intros [? _].
  - assert (Hin : - n <= i < n) by (by apply Hrange).
    rewrite (Hmod Hin).
    destruct (data p !! Z.to_nat j) as [x|] eqn:Hx.
    + split; [|done]. intros r. split.
      * by intros [= ->].
      * by intros [_ [= ->]].
    + apply lookup_ge_None in Hx. unfold j in Hx, Hrange.
      destruct (Z.ltb_spec i 0); lia.
Qed.

(** X12: the records that [LimitLineParser.save] writes for a limit other
    than 0 are the ones that the subscript [parser[-limit:]] returns: the
    outcome and the files are those of [LineParser.save] on an object that
    holds that slice, and the object keeps all its records. *)
Theorem limited_save_writes_subscript_slice binary env
    (s : State (LimitLineParser binary)) key limit :
  _limit (self s) = Some key ->
  conf s !! key = Some limit ->
  limit ≠ 0 ->
  exists kept,
    LineParser_getitem (parser (self s)) (Slice (Some (- limit)) None None)
      = Sublist kept /\
    LimitLineParser_save env s =
    (fst (LineParser_save env
            (set_self (set_data kept (parser (self s))) s)),
     set_self (self s)
       (snd (LineParser_save env
               (set_self (set_data kept (parser (self s))) s)))).
Proof.
  intros Hkey Hconf Hnz. eexists. split.
  - apply list_getitem_slice_from.
  - by apply (LimitLineParser_save_sliced env s key limit).
Qed.

Lemma limited_save_writes_subscript_slice_witness :
  let s := Sample.state
             (Sample.llp (Some Sample.key)
                (Sample.bin [Sample.b "one"; Sample.b "two"; Sample.b "three"]))
             ∅ 2 in
  LineParser_getitem (parser (self s)) (Slice (Some (-2)) None None)
    = Sublist (Sample.bin [Sample.b "two"; Sample.b "three"]) /\
  exists s',
    LimitLineParser_save Sample.env_ok s = (Ok tt, s') /\
    file_content (fs s') Sample.file
      = Some (Sample.b "two" ++ [LF_byte] ++ Sample.b "three").
Proof.
  intros s.
  destruct (limited_save_writes_subscript_slice true Sample.env_ok s
              Sample.key 2) as (kept & Hkept & Hsave).
  - reflexivity.
  - vm_compute. reflexivity.
  - lia.
  - split; [vm_compute; reflexivity|].
    eexists. split; [rewrite Hsave; reflexivity|].
    assert (Hk : kept = Sample.bin [Sample.b "two"; Sample.b "three"]).
    { assert (Heq : Sublist kept
                    = Sublist (Sample.bin [Sample.b "two"; Sample.b "three"]))
        by (rewrite <- Hkept; vm_compute; reflexivity).
      by injection Heq. }
    rewrite Hk. vm_compute. reflexivity.
Defined.

(** X13: [LimitLineParser.save] never changes the object, whose records are
    not cut down to the limit, nor the configuration, nor the content of a
    regular file other than the backing file, whether it returns or
    raises. *)
Theorem limited_save_frame binary env (s s' : State (LimitLineParser binary))
    r :
  LimitLineParser_save env s = (r, s') ->
  self s' = self s /\ conf s' = conf s /\
  forall q, q ≠ _configfile (parser (self s)) ->
            file_content (fs s') q = file_content (fs s) q.
Proof.
  rewrite LimitLineParser_save_run.
  destruct (_limit (self s)) as [key|]; [|by intros [= <- <-]].
  destruct (conf s !! key) as [limit|]; [|by intros [= <- <-]].
  case_bool_decide; [by intros [= <- <-]|].
  intros Hrun. apply save_to_inv in Hrun as (Hself & Hconf & Hr).
  do 2 (split; [done|]). intros q Hq.
  destruct r as [[]|e]; [|by apply Hr].
  destruct Hr as (_ & fp & _ & ->).
  unfold file_content at 1. rewrite lookup_insert_ne by done.
  fold (file_content
          (with_parent (_configfile (parser (self s)))
             (with_dir (_configdir (parser (self s))) (fs s))) q).
  by rewrite file_content_with_parent, file_content_with_dir.
Qed.

Lemma limited_save_frame_witness :
  let s := Sample.state
             (Sample.llp (Some Sample.key)
                (Sample.bin [Sample.b "one"; Sample.b "two"]))
             (<["/cfg/quickmarks"%string := File (Sample.b "kept")]>
                (Sample.files_with (Sample.b "old"))) 1 in
  exists s',
    LimitLineParser_save Sample.env_ok s = (Ok tt, s') /\
    self s' = self s /\
    file_content (fs s') "/cfg/quickmarks" = Some (Sample.b "kept") /\
    file_content (fs s') Sample.file = Some (Sample.b "two").
Proof.
  intros s.
  assert (Hrun : LimitLineParser_save Sample.env_ok s
                 = (Ok tt, snd (LimitLineParser_save Sample.env_ok s)))
    by (vm_compute; reflexivity).
  destruct (limited_save_frame true Sample.env_ok s _ _ Hrun)
    as (Hself & _ & Hframe).
  eexists. split; [exact Hrun|]. split; [exact Hself|]. split.
  - rewrite Hframe by discriminate. vm_compute. reflexivity.
  - vm_compute. reflexivity.
Defined.

(** X14: in text mode a file with DOS line ends loads as the same file
    with Unix line ends does: when one decodes to a text [t] without
    carriage returns and the other to [t] with a carriage return before
    every newline, the two constructors have the same outcome. *)
Theorem dos_and_unix_files_load_alike env configdir fname
    (w1 w2 : State unit) c1 c2 (t : str) :
  file_content (fs w1) (OS.path_join configdir fname) = Some c1 ->
  file_content (fs w2) (OS.path_join configdir fname) = Some c2 ->
  Utf8.decode c1 = Some t ->
  Utf8.decode c2 = Some (to_crlf t) ->
  CR ∉ t ->
  fst (LineParser_init (binary := false) env configdir fname w1) =
  fst (LineParser_init (binary := false) env configdir fname w2).
Proof.
  intros H1 H2 Hd1 Hd2 Hcr. rewrite !LineParser_init_run. cbn zeta.
  rewrite H1, H2. unfold text_of. rewrite Hd1, Hd2.
  cbn [fmap option_fmap option_map].
  rewrite translate_newlines_to_crlf, translate_newlines_id by done.
  by destruct (open_read_ok env).
Qed.

Lemma dos_and_unix_files_load_alike_witness :
  fst (LineParser_init (binary := false) Sample.env_ok Sample.dir Sample.fname
         (Sample.state tt
            (Sample.files_with [ "a"; x0d; x0a; "b"; x0d; x0a ]%byte) 0)) =
  Ok (Sample.lp (Sample.txt [Sample.u "a"; Sample.u "b"])).
Proof.
  rewrite <- (dos_and_unix_files_load_alike Sample.env_ok Sample.dir
                Sample.fname
                (Sample.state tt
                   (Sample.files_with [ "a"; x0a; "b"; x0a ]%byte) 0)
                (Sample.state tt
                   (Sample.files_with [ "a"; x0d; x0a; "b"; x0d; x0a ]%byte) 0)
                [ "a"; x0a; "b"; x0a ]%byte
                [ "a"; x0d; x0a; "b"; x0d; x0a ]%byte
                (Sample.u "a" ++ [LF] ++ Sample.u "b" ++ [LF])).
  - vm_compute. reflexivity.
  - vm_compute. reflexivity.
  - vm_compute. reflexivity.
  - vm_compute. reflexivity.
  - vm_compute. reflexivity.
  - not_in.
Defined.

Lemma elem_of_join_intro {A} (x : A) sep (r : list A) (d : list (list A)) :
  r ∈ d -> x ∈ r -> x ∈ join sep d.
Proof.
  induction d as [|r' d IH]; [by intros ?%elem_of_nil|].
  intros [->|Hr]%elem_of_cons Hx.
  - destruct d; simpl; [done|]. apply elem_of_app. by left.
  - destruct d as [|r'' d']; [by apply elem_of_nil in Hr|].
    change (join sep (r' :: r'' :: d'))
      with (r' ++ sep ++ join sep (r'' :: d')).
    apply elem_of_app. right. apply elem_of_app. right. by apply IH.
Qed.

(** X15: [_write] appends to what the handle holds the records joined by
    newlines, as they stand on disk and with no newline after the last one;
    it raises only in text mode, [UnicodeEncodeError], and exactly when some
    record holds a code point that cannot be encoded. *)
Theorem write_outcome binary (fp : writer binary) (d : list (line binary)) :
  (Forall writable d /\
   _write fp d
   = Ok {| pending := pending fp ++ join [LF_byte] (map on_disk d) |}) \/
  (binary = false /\ ~ Forall writable d /\
   _write fp d = Raise UnicodeEncodeError).
Proof.
  destruct binary.
  - left. split; [by apply Forall_forall|]. cbn -[join]. by rewrite map_id.
  - cbn -[join]. destruct (Utf8.encode (join [LF] d)) as [bs|] eqn:Henc.
    + left. apply MoreUtf8Facts.encode_Some_scalar in Henc as Hs.
      assert (Hd : Forall (writable (binary := false)) d).
      { apply Forall_forall. intros r Hr. apply Forall_forall. intros x Hx.
        rewrite Forall_forall in Hs. apply Hs.
        by eapply elem_of_join_intro. }
      split; [done|]. rewrite (Utf8Facts.encode_join d Hd) in Henc.
      by injection Henc as <-.
    + right. split; [done|]. split; [|done]. intros Hd.
      by rewrite (Utf8Facts.encode_join d Hd) in Henc.
Qed.
